(** * Search pages of the ILS front-end: DocumentsSearch and EItemsSearch

    A shallow embedding of the two React page components
    - [pages/frontsite/Documents/DocumentsSearch/DocumentsSearch.js]
    - the back-office [EItemsSearch] component
    and the properties of their rendering and of their event handlers.

    JSX is embedded as a tree of elements; a JavaScript object is a finite map
    from property names to values; [this.setState] is a command that an event
    handler issues and that is merged into the component state. *)

From Stdlib Require Import ZArith.
From stdpp Require Import gmap strings list fin_maps.

Set Warnings "-register-all".

(* ===================================================================== *)
(** * JavaScript values *)
(* ===================================================================== *)

Module Js.

(** The values that flow through the two components.  Numbers are the integer
    indices and counts the pages handle.  [JFun name] is a reference to a
    function, class or rendered markup owned by another module (the search
    toolkit's callbacks, a component class): it is passed around and compared
    by identity, never inspected. *)
Inductive JsVal : Type :=
| JUndefined
| JNull
| JBool (b : bool)
| JNum (z : Z)
| JStr (s : string)
| JFun (name : string)
| JArr (items : list JsVal)
| JObj (fields : gmap string JsVal).

(** The one-character string holding a double quote. *)
Definition dquote : string := String (Ascii.ascii_of_nat 34) EmptyString.

(** [o.k]: reading a property that an object does not have gives
    [undefined]. *)
Definition get (o : gmap string JsVal) (k : string) : JsVal :=
  default JUndefined (o !! k).

(** Truthiness, as used by [!v], [c ? a : b] and boolean attributes. *)
Definition truthy (v : JsVal) : bool :=
  match v with
  | JUndefined | JNull => false
  | JBool b => b
  | JNum z => negb (z =? 0)%Z
  | JStr s => negb (String.eqb s EmptyString)
  | JFun _ | JArr _ | JObj _ => true
  end.

(** [!v] *)
Definition js_not (v : JsVal) : JsVal := JBool (negb (truthy v)).

(** [a === b].  Primitives compare by value and references by identity.  Two
    array or object values are [===] only when they are the same allocation,
    which a value carries no trace of: they compare unequal here.  Whenever
    one side is a primitive the result is exact. *)
Definition strict_eq (a b : JsVal) : bool :=
  match a, b with
  | JUndefined, JUndefined => true
  | JNull, JNull => true
  | JBool x, JBool y => Bool.eqb x y
  | JNum x, JNum y => (x =? y)%Z
  | JStr x, JStr y => String.eqb x y
  | JFun x, JFun y => String.eqb x y
  | _, _ => false
  end.

End Js.
Export Js.

(* ===================================================================== *)
(** * React elements, callbacks and commands *)
(* ===================================================================== *)

Module React.

(** What an event handler of these pages does to the outside: it updates the
    component state, navigates, opens the record editor, or calls a function
    handed in by the search toolkit. *)
Inductive Cmd : Type :=
| SetState (patch : gmap string JsVal)        (* this.setState(patch) *)
| GoTo (path : JsVal)                         (* goTo(path) *)
| OpenRecordEditor (url : JsVal)              (* openRecordEditor(url) *)
| Invoke (f : JsVal) (args : list JsVal).     (* f(...args) *)

(** A search hit: the pages read [hit.metadata] only. *)
Record Hit : Type := { metadata : gmap string JsVal }.

(** [new InvenioSearchApi(config)] *)
Inductive SearchApi : Type :=
| InvenioSearchApi (config : gmap string JsVal).

(** The value of [getSearchConfig(name)]: the pages read [AGGREGATIONS], an
    array of [{ title, field }] objects, and pass the whole on. *)
Record SearchConfig : Type := { AGGREGATIONS : list (gmap string JsVal) }.

(** The value of a JSX attribute.  A function defined in the page is kept as a
    function, by signature; a handler that reads [this.state] when it is
    called takes that state as its first argument. *)
Inductive PropVal (E : Type) : Type :=
| PVal (v : JsVal)
| PHit (h : Hit)
| PHits (hs : list Hit)
| PSearchApi (api : SearchApi)
| PSearchConfig (c : SearchConfig)
  (* (_, queryString, onInputChange, executeSearch) => element *)
| PRenderSearchBar (f : JsVal -> JsVal -> JsVal -> JsVal -> E)
  (* results => element *)
| PRenderResults (f : list Hit -> E)
  (* (queryString, resetQuery) => element *)
| PRenderEmpty (f : JsVal -> JsVal -> E)
  (* error => element, totalResults => element *)
| PRender1 (f : JsVal -> E)
  (* (title, resultsAggregations, aggregations, customProps) => element *)
| PRenderAggregation
    (f : gmap string JsVal -> JsVal -> JsVal -> JsVal -> gmap string JsVal -> E)
  (* () => { ... } *)
| PClick (h : gmap string JsVal -> list Cmd)
  (* (e, titleProps) => { ... } *)
| PTitleClick (h : gmap string JsVal -> JsVal -> gmap string JsVal -> list Cmd)
  (* pid => ... *)
| PRowAction (h : JsVal -> list Cmd)
  (* row => ... *)
| PViewDetails (h : gmap string JsVal -> list Cmd).

Arguments PVal {E} v.
Arguments PHit {E} h.
Arguments PHits {E} hs.
Arguments PSearchApi {E} api.
Arguments PSearchConfig {E} c.
Arguments PRenderSearchBar {E} f.
Arguments PRenderResults {E} f.
Arguments PRenderEmpty {E} f.
Arguments PRender1 {E} f.
Arguments PRenderAggregation {E} f.
Arguments PClick {E} h.
Arguments PTitleClick {E} h.
Arguments PRowAction {E} h.
Arguments PViewDetails {E} h.

(** What a render function returns.  [Node tag props children] is
    [<tag ...props>children</tag>], with [key] kept among the props;
    [Expr v] is [{v}] for a plain value, [ElemList] an array of elements
    (the result of [Array.map]), [Null] is [null]. *)
Inductive Element : Type :=
| Null
| Text (s : string)
| Expr (v : JsVal)
| ElemList (items : list Element)
| Node (tag : string) (props : gmap string (PropVal Element))
       (children : list Element).

Definition str (s : string) : PropVal Element := PVal (JStr s).
Definition num (z : Z) : PropVal Element := PVal (JNum z).
(** An attribute written without a value, as in [<Grid stackable>]. *)
Definition flag : PropVal Element := PVal (JBool true).

(** ** Looking into a tree *)

(** The element and everything below it, in document order.  The elements a
    render prop would produce are not below it: they exist once the toolkit
    calls the function. *)
Fixpoint nodes (e : Element) : list Element :=
  match e with
  | ElemList items => e :: flat_map nodes items
  | Node _ _ children => e :: flat_map nodes children
  | _ => [e]
  end.

Definition tag_of (e : Element) : option string :=
  match e with Node t _ _ => Some t | _ => None end.

Definition props_of (e : Element) : gmap string (PropVal Element) :=
  match e with Node _ p _ => p | _ => ∅ end.

Definition has_tag (t : string) (e : Element) : bool :=
  match e with Node t' _ _ => String.eqb t t' | _ => false end.

(** The [<t>] elements of a tree, in document order. *)
Fixpoint with_tag (t : string) (e : Element) : list Element :=
  match e with
  | ElemList items => flat_map (with_tag t) items
  | Node tag _ children =>
      (if String.eqb t tag then [e] else []) ++ flat_map (with_tag t) children
  | _ => []
  end.

(** Whether a tree renders the widget [t] at all. *)
Definition provides (t : string) (e : Element) : bool :=
  match with_tag t e with [] => false | _ => true end.

(** The zero-argument click handlers found among the attributes of a tree. *)
Definition click_of (p : string * PropVal Element)
  : list (gmap string JsVal -> list Cmd) :=
  match p.2 with PClick h => [h] | _ => [] end.

Definition click_handlers (e : Element)
  : list (gmap string JsVal -> list Cmd) :=
  flat_map (fun n => flat_map click_of (map_to_list (props_of n))) (nodes e).

Definition is_callback (p : PropVal Element) : bool :=
  match p with
  | PClick _ | PTitleClick _ | PRowAction _ | PViewDetails _ => true
  | _ => false
  end.

(** The attributes of a tree that hold an event handler. *)
Definition handler_props (e : Element) : list (string * PropVal Element) :=
  flat_map (fun n => List.filter (fun p => is_callback p.2)
                                 (map_to_list (props_of n))) (nodes e).

(** The event handlers among the attributes of one element. *)
Definition own_handlers (p : gmap string (PropVal Element))
  : list (string * PropVal Element) :=
  List.filter (fun kp => is_callback kp.2) (map_to_list p).

(** The tree prints the value [v]: [{v}] is among its children. *)
Definition shows (v : JsVal) (e : Element) : Prop := Expr v ∈ nodes e.

(** The tree wires the function [f] to a control: the click handler of one of
    its elements calls [f]. *)
Definition wires (f : JsVal) (e : Element) : Prop :=
  ∃ h, h ∈ click_handlers e ∧ ∀ st, Invoke f [] ∈ h st.

(** The widgets of the search toolkit, and of the pages' own components, that
    a page can place around its results. *)
Definition common_widgets : list string :=
  [ "ReactSearchKit"; "SearchBar"; "ResultsLoader"; "EmptyResults"; "Error";
    "Count"; "Pagination"; "ResultsSort" ].

Definition is_render_prop (p : PropVal Element) : bool :=
  match p with
  | PRenderSearchBar _ | PRenderResults _ | PRenderEmpty _ | PRender1 _
  | PRenderAggregation _ => true
  | _ => false
  end.

(** The tree has a [<t>] widget, and gives each one a function as
    [renderElement]. *)
Definition supplies_callback (t : string) (e : Element) : bool :=
  provides t e
  && forallb (fun n => match props_of n !! "renderElement" with
                       | Some p => is_render_prop p
                       | None => false
                       end)
             (with_tag t e).

(** The widgets both pages give a render callback. *)
Definition callback_widgets : list string :=
  [ "SearchBar"; "EmptyResults"; "Error"; "Count" ].

(** A page renders its results as a grid and offers aggregation facets. *)
Definition provides_grid_and_facets (e : Element) : Prop :=
  provides "ResultsGrid" e = true ∧ provides "Aggregator" e = true.

(** ** Running handlers *)

(** [this.setState(patch)] merges the patch into the state, field by field. *)
Definition setState (patch st : gmap string JsVal) : gmap string JsVal :=
  patch ∪ st.

Definition exec (st : gmap string JsVal) (c : Cmd) : gmap string JsVal :=
  match c with
  | SetState patch => setState patch st
  | _ => st
  end.

(** The component state once the commands of a handler have run. *)
Definition dispatch (cmds : list Cmd) (st : gmap string JsVal)
  : gmap string JsVal :=
  foldl exec st cmds.

Definition is_setState (c : Cmd) : bool :=
  match c with SetState _ => true | _ => false end.

(** The fields a command list writes to the component state. *)
Definition written (cmds : list Cmd) : gset string :=
  foldr (fun c acc => match c with SetState p => dom p ∪ acc | _ => acc end)
        ∅ cmds.

(** No invocation of the handler behind an attribute updates the state. *)
Definition never_sets_state (p : PropVal Element) : Prop :=
  match p with
  | PClick h => ∀ st, existsb is_setState (h st) = false
  | PTitleClick h => ∀ st e tp, existsb is_setState (h st e tp) = false
  | PRowAction h => ∀ v, existsb is_setState (h v) = false
  | PViewDetails h => ∀ row, existsb is_setState (h row) = false
  | _ => True
  end.

(** No handler anywhere in the tree updates the component state. *)
Definition stateless_tree (e : Element) : Prop :=
  Forall (fun kp => never_sets_state kp.2) (handler_props e).

End React.
Export React.

(* ===================================================================== *)
(** * What the pages import *)
(* ===================================================================== *)

(** The modules the two files import and that are not part of them: the API
    descriptors, the route builders, the search configuration and the
    breakpoints of the UI kit.  They are configuration, fixed for a page. *)

Record DocumentApi : Type := { searchBaseURL : JsVal }.

Record EItemApi : Type := { url : JsVal }.

Record FrontSiteRoutesT : Type := {
  documentDetailsFor : JsVal -> JsVal;
  documentRequestForm : JsVal
}.

Record BackOfficeRoutesT : Type := { eitemDetailsFor : JsVal -> JsVal }.

Record ResponsiveT : Type := {
  onlyMobile : gmap string JsVal;
  onlyComputer : gmap string JsVal
}.

Record Imports : Type := {
  documentApi : DocumentApi;
  eitemApi : EItemApi;
  apiConfig : gmap string JsVal;
  getSearchConfig : string -> SearchConfig;
  FrontSiteRoutes : FrontSiteRoutesT;
  BackOfficeRoutes : BackOfficeRoutesT;
  Responsive : ResponsiveT
}.

(* ===================================================================== *)
(** * DocumentsSearch *)
(* ===================================================================== *)

Module DocumentsSearch.

Record Location : Type := { search : JsVal }.

Record Props : Type := { location : Location }.

Record Instance : Type := {
  searchApi : SearchApi;
  state : gmap string JsVal;
  searchConfig : SearchConfig;
  props : Props
}.

(** [state = { activeIndex: 0, isLayoutGrid: true }] *)
Definition initial_state : gmap string JsVal :=
  {[ "activeIndex" := JNum 0; "isLayoutGrid" := JBool true ]}.

Definition toggleAccordion (st : gmap string JsVal) (e : JsVal)
    (titleProps : gmap string JsVal) : list Cmd :=
  let index := get titleProps "index" in
  let activeIndex := get st "activeIndex" in
  let newIndex := if strict_eq activeIndex index then JNum (-1) else index in
  [SetState {[ "activeIndex" := newIndex ]}].

Definition renderAccordionAggregations (st : gmap string JsVal)
    (title resultsAggregations aggregations : JsVal)
    (customProps : gmap string JsVal) : Element :=
  let activeIndex := get st "activeIndex" in
  if negb (strict_eq resultsAggregations JUndefined) then
    Node "Accordion" {[ "as" := PVal (JFun "Menu"); "vertical" := flag ]}
      [ Node "Menu.Item" ∅
          [ Node "Accordion.Title"
              {[ "content" := PVal title;
                 "index" := PVal (get customProps "index");
                 "active" :=
                   PVal (JBool (strict_eq activeIndex (get customProps "index")));
                 "onClick" := PTitleClick toggleAccordion ]} [];
            Node "Accordion.Content"
              {[ "active" :=
                   PVal (JBool (strict_eq activeIndex (get customProps "index")));
                 "content" := PVal aggregations ]} [] ] ]
  else Null.

Definition renderSearchBar (_u queryString onInputChange executeSearch : JsVal)
  : Element :=
  Node "DocumentsSearchBar"
    {[ "currentQueryString" := PVal queryString;
       "onInputChange" := PVal onInputChange;
       "executeSearch" := PVal executeSearch;
       "placeholder" := str "Search for records..." ]} [].

(** The arrow function local to [renderResultsLayoutOptions]. *)
Definition toggleLayout (st : gmap string JsVal) : list Cmd :=
  [SetState {[ "isLayoutGrid" := js_not (get st "isLayoutGrid") ]}].

Definition renderResultsLayoutOptions (this : Instance) : Element :=
  Node "Button.Group" {[ "basic" := flag; "icon" := flag ]}
    [ Node "Button"
        {[ "disabled" := PVal (get (state this) "isLayoutGrid");
           "onClick" := PClick toggleLayout ]}
        [ Node "Icon" {[ "name" := str "grid layout" ]} [] ];
      Node "Button"
        {[ "disabled" := PVal (js_not (get (state this) "isLayoutGrid"));
           "onClick" := PClick toggleLayout ]}
        [ Node "Icon" {[ "name" := str "list layout" ]} [] ] ].

(** The arrow function [renderResultsGrid] maps over the results. *)
Definition bookCard (book : Hit) : Element :=
  Node "BookCard"
    {[ "key" := PVal (get (metadata book) "pid"); "data" := PHit book ]} [].

Definition renderResultsGrid (results : list Hit) : Element :=
  let cards := map bookCard results in
  Node "Card.Group"
    {[ "doubling" := flag; "stackable" := flag; "itemsPerRow" := num 4 ]}
    [ ElemList cards ].

Definition renderEmptyResults (queryString resetQuery : JsVal) : Element :=
  Node "Segment" {[ "placeholder" := flag; "textAlign" := str "center" ]}
    [ Node "Header" {[ "icon" := flag ]}
        [ Node "Icon" {[ "name" := str "search" ]} [];
          Text "No records found!" ];
      Node "div" {[ "className" := str "empty-results-current" ]}
        [ Text ("Current search " +:+ dquote); Expr queryString; Text dquote ] ].

Definition renderError (error : JsVal) : Element :=
  Node "IlsError" {[ "error" := PVal error ]} [].

Definition renderCount (totalResults : JsVal) : Element :=
  Node "div" ∅ [ Expr totalResults; Text " results" ].

Definition renderFooter (this : Instance) : Element :=
  Node "Grid"
    {[ "columns" := num 3; "verticalAlign" := str "middle";
       "stackable" := flag; "relaxed" := flag ]}
    [ Node "Grid.Column" {[ "width" := num 5 ]} [];
      Node "Grid.Column" {[ "width" := num 6 ]} [ Node "Pagination" ∅ [] ];
      Node "Grid.Column" {[ "width" := num 5 ]} [] ].

Definition renderHeader (this : Instance) : Element :=
  Node "Grid"
    {[ "columns" := num 3; "verticalAlign" := str "middle";
       "stackable" := flag; "relaxed" := flag ]}
    [ Node "Grid.Column" {[ "width" := num 2 ]}
        [ renderResultsLayoutOptions this ];
      Node "Grid.Column" {[ "width" := num 3; "textAlign" := str "left" ]}
        [ Node "Count" {[ "renderElement" := PRender1 renderCount ]} [] ];
      Node "Grid.Column" {[ "width" := num 6 ]} [ Node "Pagination" ∅ [] ];
      Node "Grid.Column" {[ "width" := num 5; "textAlign" := str "right" ]}
        [ Node "ResultsSort"
            {[ "searchConfig" := PSearchConfig (searchConfig this) ]} [] ] ].

(** The two arrays local to [renderAggregations]: [accordionPanels] maps each
    aggregation and its position [idx], [cardPanels] each aggregation. *)
Definition accordionPanels (this : Instance) : list Element :=
  imap (fun idx agg =>
          Node "div"
            {[ "className" := str "aggregator";
               "key" := PVal (get agg "field") ]}
            [ Node "Aggregator"
                {[ "title" := PVal (get agg "title");
                   "field" := PVal (get agg "field");
                   "customProps" :=
                     PVal (JObj {[ "index" := JNum (Z.of_nat idx) ]});
                   "renderElement" :=
                     PRenderAggregation renderAccordionAggregations ]} [] ])
       (AGGREGATIONS (searchConfig this)).

Definition cardPanels (this : Instance) : list Element :=
  map (fun agg =>
         Node "div"
           {[ "className" := str "aggregator";
              "key" := PVal (get agg "field") ]}
           [ Node "Aggregator"
               {[ "title" := PVal (get agg "title");
                  "field" := PVal (get agg "field") ]} [] ])
      (AGGREGATIONS (searchConfig this)).

Section WithImports.
Context (im : Imports).

(** The class fields, as initialised when the component is created. *)
Definition new (p : Props) : Instance :=
  {| searchApi :=
       InvenioSearchApi
         {[ "url" := searchBaseURL (documentApi im);
            "withCredentials" := JBool true ]};
     state := initial_state;
     searchConfig := getSearchConfig im "documents";
     props := p |}.

(** The arrow function [renderResultsList] maps over the results. *)
Definition documentItem (book : Hit) : Element :=
  Node "DocumentItem"
    {[ "key" := PVal (get (metadata book) "pid");
       "data-test" := PVal (get (metadata book) "pid");
       "metadata" := PVal (JObj (metadata book));
       "rowActionClickHandler" :=
         PRowAction (fun pid =>
           [GoTo (documentDetailsFor (FrontSiteRoutes im) pid)]) ]} [].

Definition renderResultsList (results : list Hit) : Element :=
  if truthy (JNum (Z.of_nat (length results))) then
    Node "div" ∅ [ ElemList (map documentItem results) ]
  else Null.

Definition renderAggregations (this : Instance) : Element :=
  Node "div" ∅
    [ Node "Responsive" (PVal <$> onlyMobile (Responsive im))
        [ ElemList (accordionPanels this) ];
      Node "Responsive" (PVal <$> onlyComputer (Responsive im))
        [ ElemList (cardPanels this) ] ].

Definition render (this : Instance) : Element :=
  let queryString := search (location (props this)) in
  let requestForm :=
    Node "Link"
      {[ "to" :=
           PVal (JObj
             {[ "pathname" := documentRequestForm (FrontSiteRoutes im);
                "state" := JObj {[ "queryString" := queryString ]} ]}) ]}
      [ Text "book request form" ] in
  Node "ReactSearchKit" {[ "searchApi" := PSearchApi (searchApi this) ]}
    [ Node "Container" {[ "className" := str "documents-search-searchbar" ]}
        [ Node "SearchBar"
            {[ "renderElement" := PRenderSearchBar renderSearchBar ]} [] ];
      Node "Grid"
        {[ "columns" := num 2; "stackable" := flag; "relaxed" := flag;
           "className" := str "documents-search-container" ]}
        [ Node "Grid.Column" {[ "width" := num 3 ]}
            [ renderAggregations this ];
          Node "Grid.Column" {[ "width" := num 13 ]}
            [ Node "ResultsLoader" ∅
                [ Node "EmptyResults"
                    {[ "renderElement" := PRenderEmpty renderEmptyResults ]} [];
                  Node "Error"
                    {[ "renderElement" := PRender1 renderError ]} [];
                  renderHeader this;
                  (if truthy (get (state this) "isLayoutGrid") then
                     Node "ResultsGrid"
                       {[ "renderElement" := PRenderResults renderResultsGrid ]}
                       []
                   else
                     Node "ResultsList"
                       {[ "renderElement" := PRenderResults renderResultsList ]}
                       []);
                  renderFooter this;
                  Node "Message" {[ "icon" := flag; "color" := str "yellow" ]}
                    [ Node "Icon" {[ "name" := str "info circle" ]} [];
                      Node "Message.Content" ∅
                        [ Node "Message.Header" ∅
                            [ Text "Couldn't find the book you were looking for?" ];
                          Text "Please fill in the ";
                          requestForm;
                          Text " to request a new book from the library." ] ] ] ] ] ].

End WithImports.

(** Whether a rendered accordion panel shows its content: the [active]
    attribute of its [Accordion.Content]. *)
Definition panel_open (e : Element) : bool :=
  existsb (fun n => match props_of n !! "active" with
                    | Some (PVal (JBool true)) => true
                    | _ => false
                    end)
          (with_tag "Accordion.Content" e).

(** ** The component as a transition system *)

(** The events the page reacts to: a click on a layout button, and a click on
    the title of an accordion panel, which the UI kit reports with the props
    of that title. *)
Inductive Event : Type :=
| ClickLayoutButton
| ClickAccordionTitle (e : JsVal) (titleProps : gmap string JsVal).

Definition handle (ev : Event) (st : gmap string JsVal) : gmap string JsVal :=
  match ev with
  | ClickLayoutButton => dispatch (toggleLayout st) st
  | ClickAccordionTitle e titleProps =>
      dispatch (toggleAccordion st e titleProps) st
  end.

(** The states the component can be in. *)
Inductive reachable : gmap string JsVal -> Prop :=
| reachable_initial : reachable initial_state
| reachable_handle st ev : reachable st -> reachable (handle ev st).

(** The instance after a state update: only [state] is replaced. *)
Definition with_state (this : Instance) (st : gmap string JsVal) : Instance :=
  {| searchApi := searchApi this; state := st;
     searchConfig := searchConfig this; props := props this |}.

(** The state with the given active index and layout. *)
Definition state_of (a : Z) (b : bool) : gmap string JsVal :=
  {[ "activeIndex" := JNum a; "isLayoutGrid" := JBool b ]}.

(** The events the rendered page can raise when it shows [n] aggregations:
    a click on a layout button, and a click on the title of the accordion
    panel at position [idx < n], whose props hold [index = idx]. *)
Inductive ui_event (n : nat) : Event -> Prop :=
| ui_layout : ui_event n ClickLayoutButton
| ui_title e titleProps idx :
    (idx < n)%nat ->
    titleProps !! "index" = Some (JNum (Z.of_nat idx)) ->
    ui_event n (ClickAccordionTitle e titleProps).

(** The states the page reaches through those events. *)
Inductive ui_reachable (n : nat) : gmap string JsVal -> Prop :=
| ui_initial : ui_reachable n initial_state
| ui_step st ev :
    ui_reachable n st -> ui_event n ev -> ui_reachable n (handle ev st).

End DocumentsSearch.

(* ===================================================================== *)
(** * EItemsSearch *)
(* ===================================================================== *)

Module EItemsSearch.

(** The component has one class field, [searchConfig], and no [state]. *)
Record Instance : Type := { searchConfig : SearchConfig }.

Definition renderSearchBar (_u queryString onInputChange executeSearch : JsVal)
  : Element :=
  Node "EItemsSearchBar"
    {[ "currentQueryString" := PVal queryString;
       "onInputChange" := PVal onInputChange;
       "executeSearch" := PVal executeSearch;
       "placeholder" := str "Search for eitems" ]} [].

Definition renderError (error : JsVal) : Element :=
  Node "IlsError" {[ "error" := PVal error ]} [].

Definition renderCount (totalResults : JsVal) : Element :=
  Node "div" ∅ [ Expr totalResults; Text " results" ].

Definition renderHeader (this : Instance) : Element :=
  Node "Grid"
    {[ "columns" := num 3; "verticalAlign" := str "middle";
       "stackable" := flag; "relaxed" := flag ]}
    [ Node "Grid.Column" {[ "width" := num 5; "textAlign" := str "left" ]}
        [ Node "Count" {[ "renderElement" := PRender1 renderCount ]} [] ];
      Node "Grid.Column" {[ "width" := num 6 ]} [ Node "Pagination" ∅ [] ];
      Node "Grid.Column" {[ "width" := num 5; "textAlign" := str "right" ]}
        [ Node "ResultsSort"
            {[ "searchConfig" := PSearchConfig (searchConfig this) ]} [] ] ].

Definition renderFooter (this : Instance) : Element :=
  Node "Grid"
    {[ "columns" := num 3; "verticalAlign" := str "middle";
       "stackable" := flag; "relaxed" := flag ]}
    [ Node "Grid.Column" {[ "width" := num 5 ]} [];
      Node "Grid.Column" {[ "width" := num 6 ]} [ Node "Pagination" ∅ [] ];
      Node "Grid.Column" {[ "width" := num 5 ]} [] ].

Section WithImports.
Context (im : Imports).

Definition new : Instance :=
  {| searchConfig := getSearchConfig im "eitems" |}.

Definition renderResultsList (results : list Hit) : Element :=
  Node "div" {[ "className" := str "results-list" ]}
    [ Node "EItemsResultsList"
        {[ "results" := PHits results;
           "viewDetailsClickHandler" :=
             PViewDetails (fun row =>
               [GoTo (eitemDetailsFor (BackOfficeRoutes im) (get row "ID"))]) ]}
        [] ].

Definition renderEmptyResults (queryString resetQuery : JsVal) : Element :=
  Node "Segment" {[ "placeholder" := flag; "textAlign" := str "center" ]}
    [ Node "Header" {[ "icon" := flag ]}
        [ Node "Icon" {[ "name" := str "search" ]} [];
          Text "No eitems found!" ];
      Node "div" {[ "className" := str "empty-results-current" ]}
        [ Text ("Current search " +:+ dquote); Expr queryString; Text dquote ];
      Node "Segment.Inline" ∅
        [ Node "ClearButton"
            {[ "clickHandler" := PClick (fun _ => [Invoke resetQuery []]) ]} [];
          Node "NewButton"
            {[ "text" := str "New eitem";
               "clickHandler" :=
                 PClick (fun _ => [OpenRecordEditor (url (eitemApi im))]) ]}
            [] ] ].

Definition render (this : Instance) : Element :=
  Node "ReactSearchKit"
    {[ "searchConfig" :=
         PVal (JObj (<[ "url" := url (eitemApi im) ]> (apiConfig im))) ]}
    [ Node "Container" {[ "className" := str "eitems-search-searchbar" ]}
        [ Node "SearchBar"
            {[ "renderElement" := PRenderSearchBar renderSearchBar ]} [] ];
      Node "Grid"
        {[ "columns" := num 2; "stackable" := flag; "relaxed" := flag;
           "className" := str "eitems-search-container" ]}
        [ Node "Grid.Column" {[ "width" := num 16 ]}
            [ Node "ResultsLoader" ∅
                [ Node "EmptyResults"
                    {[ "renderElement" := PRenderEmpty renderEmptyResults ]} [];
                  Node "Error"
                    {[ "renderElement" := PRender1 renderError ]} [];
                  renderHeader this;
                  Node "ResultsList"
                    {[ "renderElement" := PRenderResults renderResultsList ]}
                    [];
                  renderFooter this ] ] ] ].

End WithImports.

End EItemsSearch.

(* ===================================================================== *)
(** * Sample inputs *)
(* ===================================================================== *)

Module Sample.

Definition imports : Imports :=
  {| documentApi := {| searchBaseURL := JStr "/api/documents/" |};
     eitemApi := {| url := JStr "/api/eitems/" |};
     apiConfig :=
       {[ "url" := JStr "/api"; "withCredentials" := JBool true ]};
     getSearchConfig := fun name =>
       if String.eqb name "documents" then
         {| AGGREGATIONS :=
              [ {[ "title" := JStr "Languages"; "field" := JStr "languages" ]};
                {[ "title" := JStr "Keywords"; "field" := JStr "keywords" ]} ] |}
       else {| AGGREGATIONS := [] |};
     FrontSiteRoutes :=
       {| documentDetailsFor := fun pid =>
            match pid with
            | JStr s => JStr ("/documents/" +:+ s)
            | _ => JStr "/documents/undefined"
            end;
          documentRequestForm := JStr "/request" |};
     BackOfficeRoutes :=
       {| eitemDetailsFor := fun pid =>
            match pid with
            | JStr s => JStr ("/backoffice/eitems/" +:+ s)
            | _ => JStr "/backoffice/eitems/undefined"
            end |};
     Responsive :=
       {| onlyMobile := {[ "minWidth" := JNum 320; "maxWidth" := JNum 767 ]};
          onlyComputer := {[ "minWidth" := JNum 992 ]} |} |}.

Definition props : DocumentsSearch.Props :=
  {| DocumentsSearch.location :=
       {| DocumentsSearch.search := JStr "?q=tolkien" |} |}.

Definition documents : DocumentsSearch.Instance :=
  DocumentsSearch.new imports props.

Definition eitems : EItemsSearch.Instance := EItemsSearch.new imports.

Definition book1 : Hit :=
  {| metadata := {[ "pid" := JStr "123"; "title" := JStr "The Hobbit" ]} |}.

Definition book2 : Hit :=
  {| metadata := {[ "pid" := JStr "456"; "title" := JStr "Dune" ]} |}.

Definition row : gmap string JsVal :=
  {[ "ID" := JStr "7"; "Description" := JStr "pdf" ]}.

End Sample.

(* ===================================================================== *)
(** * Reading trees *)
(* ===================================================================== *)

(** [with_tag] selects among [nodes]. *)
Lemma with_tag_nodes (t : string) :
  ∀ e, with_tag t e = List.filter (has_tag t) (nodes e).
Proof.
  fix IH 1. intros [| s | v | items | tag p cs].
  - done.
  - done.
  - done.
  - cbn [with_tag nodes List.filter has_tag].
    induction items as [|c cs' IHc]; [done|].
    cbn [flat_map]. by rewrite List.filter_app, <- IH, IHc.
  - cbn [with_tag nodes List.filter has_tag].
    assert (Hcs : flat_map (with_tag t) cs
                  = List.filter (has_tag t) (flat_map nodes cs)).
    { induction cs as [|c cs' IHc]; [done|].
      cbn [flat_map]. by rewrite List.filter_app, <- IH, IHc. }
    rewrite Hcs. by destruct (String.eqb t tag).
Qed.

Lemma flat_map_map_nil {A B C} (g : B -> list C) (f : A -> B) (l : list A) :
  (∀ x, g (f x) = []) → flat_map g (map f l) = [].
Proof. intros H. induction l as [|x l IH]; [done|]. simpl. by rewrite H, IH. Qed.

Lemma flat_map_imap_nil {A B C} (g : B -> list C) (f : nat -> A -> B)
    (l : list A) :
  (∀ i x, g (f i x) = []) → flat_map g (imap f l) = [].
Proof.
  revert f. induction l as [|x l IH]; intros f H; [done|].
  simpl. rewrite H. simpl. apply IH. intros i y. apply H.
Qed.

Lemma flat_map_imap_singleton {A B C} (g : B -> list C) (f : nat -> A -> B)
    (h : nat -> A -> C) (l : list A) :
  (∀ i x, g (f i x) = [h i x]) → flat_map g (imap f l) = imap h l.
Proof.
  revert f h. induction l as [|x l IH]; intros f h H; [done|].
  simpl. rewrite H. simpl. f_equal. apply IH. intros i y. apply H.
Qed.

Lemma flat_map_map_singleton {A B C} (g : B -> list C) (f : A -> B)
    (h : A -> C) (l : list A) :
  (∀ x, g (f x) = [h x]) → flat_map g (map f l) = map h l.
Proof.
  intros H. induction l as [|x l IH]; [done|]. simpl. by rewrite H, IH.
Qed.

(** Unfold [with_tag] along a tree that is written out, deciding each tag. *)
Ltac tags := cbn [with_tag flat_map app String.eqb Ascii.eqb Bool.eqb].

Lemma with_tag_renderAggregations (im : Imports)
    (this : DocumentsSearch.Instance) (t : string) :
  String.eqb t "div" = false →
  String.eqb t "Responsive" = false →
  String.eqb t "Aggregator" = false →
  with_tag t (DocumentsSearch.renderAggregations im this) = [].
Proof.
  intros Hd Hr Ha. unfold DocumentsSearch.renderAggregations,
    DocumentsSearch.accordionPanels, DocumentsSearch.cardPanels.
  cbn [with_tag flat_map app]. rewrite Hd, Hr.
  rewrite flat_map_imap_nil, flat_map_map_nil; [done| |];
    intros; cbn [with_tag flat_map app]; by rewrite Hd, Ha.
Qed.

(* ===================================================================== *)
(** * The state of DocumentsSearch *)
(* ===================================================================== *)

Lemma toggleLayout_lookup (st : gmap string JsVal) (k : string) :
  dispatch (DocumentsSearch.toggleLayout st) st !! k =
  if decide (k = "isLayoutGrid")
  then Some (js_not (get st "isLayoutGrid")) else st !! k.
Proof.
  unfold dispatch, DocumentsSearch.toggleLayout. simpl. unfold setState.
  rewrite lookup_union. case_decide as Hk.
  - subst k. rewrite lookup_singleton_eq. by destruct (st !! "isLayoutGrid").
  - rewrite lookup_singleton_ne by done. by destruct (st !! k).
Qed.

Lemma toggleAccordion_lookup (st : gmap string JsVal) (e : JsVal)
    (tp : gmap string JsVal) (k : string) :
  dispatch (DocumentsSearch.toggleAccordion st e tp) st !! k =
  if decide (k = "activeIndex")
  then Some (if strict_eq (get st "activeIndex") (get tp "index")
             then JNum (-1) else get tp "index")
  else st !! k.
Proof.
  unfold dispatch, DocumentsSearch.toggleAccordion. simpl. unfold setState.
  rewrite lookup_union. case_decide as Hk.
  - subst k. rewrite lookup_singleton_eq. by destruct (st !! "activeIndex").
  - rewrite lookup_singleton_ne by done. by destruct (st !! k).
Qed.

(* ===================================================================== *)
(** * Layout toggle *)
(* ===================================================================== *)

Section Layout.
Import DocumentsSearch.

(** C1. In DocumentsSearch, when [isLayoutGrid] is true the results are
    rendered through [ResultsGrid] with [renderResultsGrid], when it is false
    through [ResultsList] with [renderResultsList]; both layout buttons carry
    the same click handler, and a click flips [isLayoutGrid], so that the next
    rendering uses the other widget. *)
Theorem toggling_layout_switches_grid_and_list
    (im : Imports) (this : Instance) (b : bool) :
  state this !! "isLayoutGrid" = Some (JBool b) →
  let grid :=
    Node "ResultsGrid"
      {[ "renderElement" := PRenderResults renderResultsGrid ]} [] in
  let lst :=
    Node "ResultsList"
      {[ "renderElement" := PRenderResults (renderResultsList im) ]} [] in
  let clicked := with_state this (handle ClickLayoutButton (state this)) in
  with_tag "ResultsGrid" (render im this) = (if b then [grid] else [])
  ∧ with_tag "ResultsList" (render im this) = (if b then [] else [lst])
  ∧ map (fun n => props_of n !! "onClick")
        (with_tag "Button" (render im this))
    = [Some (PClick toggleLayout); Some (PClick toggleLayout)]
  ∧ handle ClickLayoutButton (state this) !! "isLayoutGrid"
    = Some (JBool (negb b))
  ∧ with_tag "ResultsGrid" (render im clicked) = (if b then [] else [grid])
  ∧ with_tag "ResultsList" (render im clicked) = (if b then [lst] else []).
Proof.
  intros Hb grid lst clicked.
  assert (Hget : get (state this) "isLayoutGrid" = JBool b)
    by (unfold get; by rewrite Hb).
  assert (Hflip : handle ClickLayoutButton (state this) !! "isLayoutGrid"
                  = Some (JBool (negb b))).
  { unfold handle. rewrite toggleLayout_lookup, decide_True by done.
    by rewrite Hget. }
  assert (Hget' : get (state clicked) "isLayoutGrid" = JBool (negb b))
    by (unfold get, clicked, with_state; cbn [state]; by rewrite Hflip).
  repeat split.
  - unfold render, renderHeader, renderFooter, renderResultsLayoutOptions.
    rewrite Hget. tags. rewrite with_tag_renderAggregations by done.
    destruct b; tags; done.
  - unfold render, renderHeader, renderFooter, renderResultsLayoutOptions.
    rewrite Hget. tags. rewrite with_tag_renderAggregations by done.
    destruct b; tags; done.
  - unfold render, renderHeader, renderFooter, renderResultsLayoutOptions.
    tags. rewrite with_tag_renderAggregations by done.
    destruct (truthy _); tags; done.
  - exact Hflip.
  - unfold render, renderHeader, renderFooter, renderResultsLayoutOptions.
    rewrite Hget'. tags. rewrite with_tag_renderAggregations by done.
    destruct b; tags; done.
  - unfold render, renderHeader, renderFooter, renderResultsLayoutOptions.
    rewrite Hget'. tags. rewrite with_tag_renderAggregations by done.
    destruct b; tags; done.
Qed.

End Layout.

(* ===================================================================== *)
(** * Invariants of the DocumentsSearch state *)
(* ===================================================================== *)

Section StateInvariants.
Import DocumentsSearch.

Lemma handle_dom (ev : Event) (st : gmap string JsVal) :
  dom st = {[ "activeIndex"; "isLayoutGrid" ]} →
  dom (handle ev st) = {[ "activeIndex"; "isLayoutGrid" ]}.
Proof.
  intros Hdom.
  destruct ev as [|e tp]; unfold handle, dispatch, toggleLayout,
    toggleAccordion; simpl; unfold setState;
    rewrite dom_union_L, dom_singleton_L, Hdom; set_solver.
Qed.

Lemma initial_dom : dom initial_state = {[ "activeIndex"; "isLayoutGrid" ]}.
Proof.
  unfold initial_state. rewrite dom_insert_L, dom_singleton_L. set_solver.
Qed.

Lemma reachable_dom (st : gmap string JsVal) :
  reachable st → dom st = {[ "activeIndex"; "isLayoutGrid" ]}.
Proof.
  induction 1 as [|st ev _ IH]; [apply initial_dom | by apply handle_dom].
Qed.

Lemma reachable_isLayoutGrid (st : gmap string JsVal) :
  reachable st → ∃ b, st !! "isLayoutGrid" = Some (JBool b).
Proof.
  induction 1 as [|st ev _ [b Hb]].
  - by exists true.
  - destruct ev as [|e tp]; unfold handle.
    + rewrite toggleLayout_lookup, decide_True by done.
      unfold js_not. eauto.
    + rewrite toggleAccordion_lookup, decide_False by done. eauto.
Qed.

Lemma handle_layout_twice (st : gmap string JsVal) (b : bool) :
  st !! "isLayoutGrid" = Some (JBool b) →
  handle ClickLayoutButton (handle ClickLayoutButton st) = st.
Proof.
  intros Hb. apply map_eq. intros k. unfold handle.
  rewrite !toggleLayout_lookup. case_decide as Hk; [|done].
  subst k. unfold get at 1. rewrite toggleLayout_lookup, decide_True by done.
  unfold get. rewrite Hb. by destruct b.
Qed.

End StateInvariants.

(* ===================================================================== *)
(** * Layout toggle as an involution *)
(* ===================================================================== *)

Section Involution.
Import DocumentsSearch.

(** C9. The layout toggle negates [isLayoutGrid], so that two clicks restore
    the state; [isLayoutGrid] is initially true; and in every state the
    component can reach, exactly one of the two layout buttons is disabled:
    the grid button in grid layout, the list button in list layout. *)
Theorem layout_toggle_is_an_involution
    (im : Imports) (this : Instance) :
  reachable (state this) →
  initial_state !! "isLayoutGrid" = Some (JBool true)
  ∧ ∃ b : bool,
      state this !! "isLayoutGrid" = Some (JBool b)
      ∧ handle ClickLayoutButton (state this) !! "isLayoutGrid"
        = Some (JBool (negb b))
      ∧ handle ClickLayoutButton (handle ClickLayoutButton (state this))
        = state this
      ∧ with_tag "Button" (render im this)
        = [ Node "Button"
              {[ "disabled" := PVal (JBool b);
                 "onClick" := PClick toggleLayout ]}
              [ Node "Icon" {[ "name" := str "grid layout" ]} [] ];
            Node "Button"
              {[ "disabled" := PVal (JBool (negb b));
                 "onClick" := PClick toggleLayout ]}
              [ Node "Icon" {[ "name" := str "list layout" ]} [] ] ].
Proof.
  intros Hreach. split; [done|].
  destruct (reachable_isLayoutGrid _ Hreach) as [b Hb]. exists b.
  assert (Hget : get (state this) "isLayoutGrid" = JBool b)
    by (unfold get; by rewrite Hb).
  repeat split.
  - exact Hb.
  - unfold handle. rewrite toggleLayout_lookup, decide_True by done.
    by rewrite Hget.
  - by apply (handle_layout_twice _ b).
  - unfold render, renderHeader, renderFooter, renderResultsLayoutOptions.
    rewrite Hget. tags. rewrite with_tag_renderAggregations by done.
    destruct b; tags; done.
Qed.

End Involution.

(* ===================================================================== *)
(** * Component state *)
(* ===================================================================== *)

Section ComponentState.
Import DocumentsSearch.

Lemma handle_other_field (ev : Event) (st : gmap string JsVal) (k : string) :
  k ≠ "activeIndex" → k ≠ "isLayoutGrid" → handle ev st !! k = st !! k.
Proof.
  intros Ha Hl. destruct ev as [|e tp]; unfold handle.
  - by rewrite toggleLayout_lookup, decide_False.
  - by rewrite toggleAccordion_lookup, decide_False.
Qed.

Ltac stateless := unfold stateless_tree; vm_compute; repeat constructor.

(** C7. The state of DocumentsSearch is [{ activeIndex, isLayoutGrid }]:
    these are the fields it starts with and the fields of every state it
    reaches; [toggleLayout] writes [isLayoutGrid] only, [toggleAccordion]
    writes [activeIndex] only, and no event changes any other field.
    EItemsSearch has no state: none of the handlers in the trees it renders
    issues a state update. *)
Theorem component_state_is_the_two_ui_toggles (im : Imports) :
  dom initial_state = {[ "activeIndex"; "isLayoutGrid" ]}
  ∧ (∀ st, written (toggleLayout st) = {[ "isLayoutGrid" ]})
  ∧ (∀ st e titleProps,
       written (toggleAccordion st e titleProps) = {[ "activeIndex" ]})
  ∧ (∀ st, reachable st → dom st = {[ "activeIndex"; "isLayoutGrid" ]})
  ∧ (∀ ev st k,
       k ≠ "activeIndex" → k ≠ "isLayoutGrid" → handle ev st !! k = st !! k)
  ∧ (∀ this, stateless_tree (EItemsSearch.render im this))
  ∧ (∀ u q onInputChange executeSearch,
       stateless_tree (EItemsSearch.renderSearchBar u q onInputChange
                         executeSearch))
  ∧ (∀ results, stateless_tree (EItemsSearch.renderResultsList im results))
  ∧ (∀ q resetQuery,
       stateless_tree (EItemsSearch.renderEmptyResults im q resetQuery))
  ∧ (∀ error, stateless_tree (EItemsSearch.renderError error))
  ∧ (∀ total, stateless_tree (EItemsSearch.renderCount total)).
Proof.
  split; [apply initial_dom|].
  split. { intros st. unfold written, toggleLayout. simpl.
           rewrite dom_singleton_L. set_solver. }
  split. { intros st e tp. unfold written, toggleAccordion. simpl.
           rewrite dom_singleton_L. set_solver. }
  split; [apply reachable_dom|].
  split; [apply handle_other_field|].
  repeat split; intros; stateless.
Qed.

End ComponentState.

(* ===================================================================== *)
(** * Accordion of aggregations *)
(* ===================================================================== *)

Section Accordion.
Import DocumentsSearch.

Lemma strict_eq_JNum (v : JsVal) (z : Z) :
  strict_eq v (JNum z) = true ↔ v = JNum z.
Proof.
  destruct v; simpl; try (split; [discriminate|congruence]).
  rewrite Z.eqb_eq. split; congruence.
Qed.

Lemma panel_open_spec (st : gmap string JsVal)
    (title resultsAggregations aggregations : JsVal)
    (customProps : gmap string JsVal) :
  panel_open (renderAccordionAggregations st title resultsAggregations
                aggregations customProps)
  = negb (strict_eq resultsAggregations JUndefined)
    && strict_eq (get st "activeIndex") (get customProps "index").
Proof.
  unfold renderAccordionAggregations.
  destruct (strict_eq resultsAggregations JUndefined); [done|].
  by destruct (strict_eq (get st "activeIndex") (get customProps "index")).
Qed.

(** C8. At most one aggregation accordion panel of DocumentsSearch is open:
    the accordion panels carry their position as index, a panel is rendered
    open exactly when its index is [activeIndex] (and there are aggregation
    results), so two open panels have the same index; clicking the title of
    panel [i] while [a] is the active index sets [activeIndex] to [-1] when
    [a = i], which is the index of no panel, and to [i] otherwise. *)
Theorem at_most_one_accordion_panel_is_open
    (im : Imports) (this : Instance) :
  let st := state this in
  let panel idx title resultsAggregations aggregations :=
    renderAccordionAggregations st title resultsAggregations aggregations
      {[ "index" := JNum idx ]} in
  with_tag "Aggregator" (ElemList (accordionPanels this))
  = imap (fun idx agg =>
            Node "Aggregator"
              {[ "title" := PVal (get agg "title");
                 "field" := PVal (get agg "field");
                 "customProps" :=
                   PVal (JObj {[ "index" := JNum (Z.of_nat idx) ]});
                 "renderElement" :=
                   PRenderAggregation renderAccordionAggregations ]} [])
         (AGGREGATIONS (searchConfig this))
  ∧ (∀ idx t r a,
       panel_open (panel idx t r a) = true
       ↔ r ≠ JUndefined ∧ get st "activeIndex" = JNum idx)
  ∧ (∀ i j t1 r1 a1 t2 r2 a2,
       panel_open (panel i t1 r1 a1) = true →
       panel_open (panel j t2 r2 a2) = true → i = j)
  ∧ (∀ a i e,
       st !! "activeIndex" = Some (JNum a) →
       handle (ClickAccordionTitle e {[ "index" := JNum i ]}) st
         !! "activeIndex"
       = Some (JNum (if (a =? i)%Z then -1 else i)))
  ∧ (∀ (idx : nat) t r a,
       st !! "activeIndex" = Some (JNum (-1)) →
       panel_open (panel (Z.of_nat idx) t r a) = false).
Proof.
  intros st panel.
  assert (Hopen : ∀ idx t r a,
             panel_open (panel idx t r a) = true
             ↔ r ≠ JUndefined ∧ get st "activeIndex" = JNum idx).
  { intros idx t r a. unfold panel. rewrite panel_open_spec.
    rewrite andb_true_iff, negb_true_iff.
    change (get {[ "index" := JNum idx ]} "index") with (JNum idx).
    rewrite strict_eq_JNum. split; intros [Hr Hi]; split; try done.
    - intros ->. done.
    - destruct r; try done. }
  refine (conj _ (conj Hopen (conj _ (conj _ _)))).
  - unfold accordionPanels. cbn [with_tag].
    by apply flat_map_imap_singleton.
  - intros i j t1 r1 a1 t2 r2 a2 Hi Hj.
    apply Hopen in Hi as [_ Hi]. apply Hopen in Hj as [_ Hj]. congruence.
  - intros a i e Ha. unfold handle.
    rewrite toggleAccordion_lookup, decide_True by done.
    unfold get at 1. rewrite Ha.
    change (get {[ "index" := JNum i ]} "index") with (JNum i).
    simpl. by destruct (a =? i)%Z.
  - intros idx t r a Ha. destruct (panel_open _) eqn:E; [|done].
    apply Hopen in E as [_ E]. unfold get in E. rewrite Ha in E.
    simpl in E. injection E as E. lia.
Qed.

End Accordion.

(* ===================================================================== *)
(** * Empty results *)
(* ===================================================================== *)

Section EmptyResults.

Ltac in_list :=
  repeat first [apply list_elem_of_here | apply list_elem_of_further].

(** C2, as stated, fails for DocumentsSearch: its empty-results rendering
    shows the query string but calls [resetQuery] from no control. *)
Lemma documents_empty_results_has_no_reset :
  ¬ (shows (JStr "tolkien")
       (DocumentsSearch.renderEmptyResults (JStr "tolkien") (JFun "resetQuery"))
     ∧ wires (JFun "resetQuery")
         (DocumentsSearch.renderEmptyResults (JStr "tolkien")
            (JFun "resetQuery"))).
Proof.
  intros [_ [h [Hh _]]].
  assert (Hnone : click_handlers
            (DocumentsSearch.renderEmptyResults (JStr "tolkien")
               (JFun "resetQuery")) = [])
    by (vm_compute; reflexivity).
  rewrite Hnone in Hh. by apply elem_of_nil in Hh.
Qed.

(** C2, amended. For every query string, the empty-results rendering of both
    pages prints the query string verbatim.  EItemsSearch wires [resetQuery]
    to the click handler of its [ClearButton]; DocumentsSearch renders no
    control: its output holds no event handler and is the same for every
    [resetQuery]. *)
Theorem empty_results_show_query_and_eitems_reset
    (im : Imports) (queryString resetQuery : JsVal) :
  shows queryString
    (DocumentsSearch.renderEmptyResults queryString resetQuery)
  ∧ shows queryString
      (EItemsSearch.renderEmptyResults im queryString resetQuery)
  ∧ wires resetQuery
      (EItemsSearch.renderEmptyResults im queryString resetQuery)
  ∧ map (fun n => props_of n !! "clickHandler")
        (with_tag "ClearButton"
           (EItemsSearch.renderEmptyResults im queryString resetQuery))
    = [Some (PClick (fun _ => [Invoke resetQuery []]))]
  ∧ handler_props
      (DocumentsSearch.renderEmptyResults queryString resetQuery) = []
  ∧ (∀ other,
       DocumentsSearch.renderEmptyResults queryString other
       = DocumentsSearch.renderEmptyResults queryString resetQuery).
Proof.
  split; [|split; [|split; [|split; [|split]]]].
  - unfold shows, DocumentsSearch.renderEmptyResults. cbn [nodes flat_map app].
    in_list.
  - unfold shows, EItemsSearch.renderEmptyResults. cbn [nodes flat_map app].
    in_list.
  - exists (fun _ => [Invoke resetQuery []]). split; [|intros _; in_list].
    assert (Hh : click_handlers
              (EItemsSearch.renderEmptyResults im queryString resetQuery)
            = [ (fun _ => [Invoke resetQuery []]);
                (fun _ => [OpenRecordEditor (url (eitemApi im))]) ])
      by (vm_compute; reflexivity).
    rewrite Hh. in_list.
  - reflexivity.
  - vm_compute. reflexivity.
  - reflexivity.
Qed.

End EmptyResults.

(* ===================================================================== *)
(** * The two pages side by side *)
(* ===================================================================== *)

Section Pages.

Ltac documents_tree :=
  unfold DocumentsSearch.render, DocumentsSearch.renderHeader,
    DocumentsSearch.renderFooter, DocumentsSearch.renderResultsLayoutOptions.

Lemma with_tag_Aggregator_documents (im : Imports)
    (this : DocumentsSearch.Instance) :
  length (with_tag "Aggregator" (DocumentsSearch.render im this))
  = 2 * length (AGGREGATIONS (DocumentsSearch.searchConfig this)).
Proof.
  documents_tree. tags.
  assert (Hagg : ∀ t, length (with_tag "Aggregator"
                         (DocumentsSearch.renderAggregations im t))
                      = 2 * length (AGGREGATIONS (DocumentsSearch.searchConfig t))).
  { intros t. unfold DocumentsSearch.renderAggregations,
      DocumentsSearch.accordionPanels, DocumentsSearch.cardPanels. tags.
    rewrite (flat_map_imap_singleton _ _
               (fun idx agg =>
                  Node "Aggregator"
                    {[ "title" := PVal (get agg "title");
                       "field" := PVal (get agg "field");
                       "customProps" :=
                         PVal (JObj {[ "index" := JNum (Z.of_nat idx) ]});
                       "renderElement" :=
                         PRenderAggregation
                           DocumentsSearch.renderAccordionAggregations ]} []))
      by done.
    rewrite (flat_map_map_singleton _ _
               (fun agg =>
                  Node "Aggregator"
                    {[ "title" := PVal (get agg "title");
                       "field" := PVal (get agg "field") ]} []))
      by done.
    rewrite !length_app, length_imap, length_map. simpl. lia. }
  rewrite !length_app, Hagg.
  destruct (truthy _); simpl; lia.
Qed.

Lemma with_tag_Aggregator_renderAggregations (im : Imports)
    (this : DocumentsSearch.Instance) :
  with_tag "Aggregator" (DocumentsSearch.renderAggregations im this)
  = imap (fun idx agg =>
            Node "Aggregator"
              {[ "title" := PVal (get agg "title");
                 "field" := PVal (get agg "field");
                 "customProps" :=
                   PVal (JObj {[ "index" := JNum (Z.of_nat idx) ]});
                 "renderElement" :=
                   PRenderAggregation
                     DocumentsSearch.renderAccordionAggregations ]} [])
         (AGGREGATIONS (DocumentsSearch.searchConfig this))
    ++ map (fun agg =>
              Node "Aggregator"
                {[ "title" := PVal (get agg "title");
                   "field" := PVal (get agg "field") ]} [])
           (AGGREGATIONS (DocumentsSearch.searchConfig this)).
Proof.
  unfold DocumentsSearch.renderAggregations,
    DocumentsSearch.accordionPanels, DocumentsSearch.cardPanels. tags.
  rewrite (flat_map_imap_singleton _ _
             (fun idx agg =>
                Node "Aggregator"
                  {[ "title" := PVal (get agg "title");
                     "field" := PVal (get agg "field");
                     "customProps" :=
                       PVal (JObj {[ "index" := JNum (Z.of_nat idx) ]});
                     "renderElement" :=
                       PRenderAggregation
                         DocumentsSearch.renderAccordionAggregations ]} []))
    by done.
  rewrite (flat_map_map_singleton _ _
             (fun agg =>
                Node "Aggregator"
                  {[ "title" := PVal (get agg "title");
                     "field" := PVal (get agg "field") ]} []))
    by done.
  by rewrite !app_nil_r.
Qed.

Lemma with_tag_Aggregator_render (im : Imports)
    (this : DocumentsSearch.Instance) :
  with_tag "Aggregator" (DocumentsSearch.render im this)
  = with_tag "Aggregator" (DocumentsSearch.renderAggregations im this).
Proof.
  documents_tree. tags. destruct (truthy _); tags; by rewrite !app_nil_r.
Qed.

(** C3, as stated, fails on the sample configuration.  DocumentsSearch
    renders a results grid and aggregation facets, EItemsSearch renders
    neither, so it has no callback for a grid or for aggregations either; and
    neither page gives the pagination or the sort widget a render-prop
    callback. *)
Lemma pages_are_not_structurally_identical :
  provides_grid_and_facets
    (DocumentsSearch.render Sample.imports Sample.documents)
  ∧ ¬ provides_grid_and_facets
        (EItemsSearch.render Sample.imports Sample.eitems)
  ∧ supplies_callback "ResultsGrid"
      (EItemsSearch.render Sample.imports Sample.eitems) = false
  ∧ supplies_callback "Aggregator"
      (EItemsSearch.render Sample.imports Sample.eitems) = false
  ∧ supplies_callback "Pagination"
      (DocumentsSearch.render Sample.imports Sample.documents) = false
  ∧ supplies_callback "Pagination"
      (EItemsSearch.render Sample.imports Sample.eitems) = false
  ∧ supplies_callback "ResultsSort"
      (DocumentsSearch.render Sample.imports Sample.documents) = false
  ∧ supplies_callback "ResultsSort"
      (EItemsSearch.render Sample.imports Sample.eitems) = false.
Proof.
  split; [split; vm_compute; reflexivity|].
  split; [intros [Hgrid _]; vm_compute in Hgrid; discriminate|].
  repeat split; vm_compute; reflexivity.
Qed.

(** C3, amended. Each page configures a search-context provider with an API
    endpoint: DocumentsSearch with the search API built on
    [documentApi.searchBaseURL], EItemsSearch with a search configuration
    whose [url] is [eitemApi.url].  Both render a search bar, an empty state,
    an error state, a count, a pagination and a sort widget.  Both give a
    render-prop callback to the search bar, the empty state, the error state
    and the count, and to the results widget: EItemsSearch always to the
    result list, DocumentsSearch to the results grid in grid layout and to
    the result list otherwise.  Neither gives the pagination or the sort
    widget a callback: the two paginations have no attribute and the sort
    widget gets the search configuration of the page.  Only DocumentsSearch
    renders a results grid and aggregation facets, two per configured
    aggregation, the accordion one with [renderAccordionAggregations] as
    callback and the card one without; EItemsSearch has neither grid nor
    facets. *)
Theorem pages_share_widgets_but_not_grid_and_facets
    (im : Imports) (documents : DocumentsSearch.Instance)
    (eitems : EItemsSearch.Instance) :
  Forall (fun t =>
            provides t (DocumentsSearch.render im documents) = true
            ∧ provides t (EItemsSearch.render im eitems) = true)
         common_widgets
  ∧ Forall (fun t =>
              supplies_callback t (DocumentsSearch.render im documents) = true
              ∧ supplies_callback t (EItemsSearch.render im eitems) = true)
           callback_widgets
  ∧ is_Some (props_of (DocumentsSearch.render im documents) !! "searchApi")
  ∧ is_Some (props_of (EItemsSearch.render im eitems) !! "searchConfig")
  ∧ supplies_callback "ResultsList" (EItemsSearch.render im eitems) = true
  ∧ provides "ResultsGrid" (EItemsSearch.render im eitems) = false
  ∧ provides "Aggregator" (EItemsSearch.render im eitems) = false
  ∧ provides "ResultsGrid" (DocumentsSearch.render im documents)
    = truthy (get (DocumentsSearch.state documents) "isLayoutGrid")
  ∧ provides "ResultsList" (DocumentsSearch.render im documents)
    = negb (truthy (get (DocumentsSearch.state documents) "isLayoutGrid"))
  ∧ length (with_tag "Aggregator" (DocumentsSearch.render im documents))
    = 2 * length (AGGREGATIONS (DocumentsSearch.searchConfig documents))
  (* the endpoints of the two providers *)
  ∧ props_of (DocumentsSearch.render im documents) !! "searchApi"
    = Some (PSearchApi (DocumentsSearch.searchApi documents))
  ∧ (∀ p st,
       DocumentsSearch.searchApi
         (DocumentsSearch.with_state (DocumentsSearch.new im p) st)
       = InvenioSearchApi
           {[ "url" := searchBaseURL (documentApi im);
              "withCredentials" := JBool true ]})
  ∧ props_of (EItemsSearch.render im eitems) !! "searchConfig"
    = Some (PVal (JObj (<[ "url" := url (eitemApi im) ]> (apiConfig im))))
  ∧ (<[ "url" := url (eitemApi im) ]> (apiConfig im)) !! "url"
    = Some (url (eitemApi im))
  (* the callbacks of the results widgets of DocumentsSearch *)
  ∧ supplies_callback "ResultsGrid" (DocumentsSearch.render im documents)
    = truthy (get (DocumentsSearch.state documents) "isLayoutGrid")
  ∧ supplies_callback "ResultsList" (DocumentsSearch.render im documents)
    = negb (truthy (get (DocumentsSearch.state documents) "isLayoutGrid"))
  (* pagination and sort: rendered, without callback *)
  ∧ with_tag "Pagination" (DocumentsSearch.render im documents)
    = [ Node "Pagination" ∅ []; Node "Pagination" ∅ [] ]
  ∧ with_tag "Pagination" (EItemsSearch.render im eitems)
    = [ Node "Pagination" ∅ []; Node "Pagination" ∅ [] ]
  ∧ with_tag "ResultsSort" (DocumentsSearch.render im documents)
    = [ Node "ResultsSort"
          {[ "searchConfig" :=
               PSearchConfig (DocumentsSearch.searchConfig documents) ]} [] ]
  ∧ with_tag "ResultsSort" (EItemsSearch.render im eitems)
    = [ Node "ResultsSort"
          {[ "searchConfig" :=
               PSearchConfig (EItemsSearch.searchConfig eitems) ]} [] ]
  ∧ supplies_callback "Pagination" (DocumentsSearch.render im documents)
    = false
  ∧ supplies_callback "Pagination" (EItemsSearch.render im eitems) = false
  ∧ supplies_callback "ResultsSort" (DocumentsSearch.render im documents)
    = false
  ∧ supplies_callback "ResultsSort" (EItemsSearch.render im eitems) = false
  (* the aggregation facets of DocumentsSearch and their callback *)
  ∧ with_tag "Aggregator" (DocumentsSearch.render im documents)
    = imap (fun idx agg =>
              Node "Aggregator"
                {[ "title" := PVal (get agg "title");
                   "field" := PVal (get agg "field");
                   "customProps" :=
                     PVal (JObj {[ "index" := JNum (Z.of_nat idx) ]});
                   "renderElement" :=
                     PRenderAggregation
                       DocumentsSearch.renderAccordionAggregations ]} [])
           (AGGREGATIONS (DocumentsSearch.searchConfig documents))
      ++ map (fun agg =>
                Node "Aggregator"
                  {[ "title" := PVal (get agg "title");
                     "field" := PVal (get agg "field") ]} [])
             (AGGREGATIONS (DocumentsSearch.searchConfig documents))
  ∧ supplies_callback "ResultsGrid" (EItemsSearch.render im eitems) = false
  ∧ supplies_callback "Aggregator" (EItemsSearch.render im eitems) = false.
Proof.
  repeat match goal with |- _ ∧ _ => split end.
  - unfold common_widgets.
    repeat (constructor;
            [ split; [ unfold provides; documents_tree; tags;
                       try rewrite with_tag_renderAggregations by done;
                       first [ done | by destruct (truthy _) ]
                     | reflexivity ] |]).
    constructor.
  - unfold callback_widgets.
    repeat (constructor;
            [ split; [ unfold supplies_callback, provides; documents_tree;
                       tags;
                       try rewrite with_tag_renderAggregations by done;
                       first [ done | by destruct (truthy _) ]
                     | reflexivity ] |]).
    constructor.
  - by eexists.
  - by eexists.
  - reflexivity.
  - reflexivity.
  - reflexivity.
  - unfold provides. documents_tree. tags.
    rewrite with_tag_renderAggregations by done. by destruct (truthy _).
  - unfold provides. documents_tree. tags.
    rewrite with_tag_renderAggregations by done. by destruct (truthy _).
  - apply with_tag_Aggregator_documents.
  - reflexivity.
  - reflexivity.
  - reflexivity.
  - apply lookup_insert_eq.
  - unfold supplies_callback, provides. documents_tree. tags.
    rewrite with_tag_renderAggregations by done. by destruct (truthy _).
  - unfold supplies_callback, provides. documents_tree. tags.
    rewrite with_tag_renderAggregations by done. by destruct (truthy _).
  - documents_tree. tags. rewrite with_tag_renderAggregations by done.
    by destruct (truthy _).
  - reflexivity.
  - documents_tree. tags. rewrite with_tag_renderAggregations by done.
    by destruct (truthy _).
  - reflexivity.
  - unfold supplies_callback, provides. documents_tree. tags.
    rewrite with_tag_renderAggregations by done. by destruct (truthy _).
  - reflexivity.
  - unfold supplies_callback, provides. documents_tree. tags.
    rewrite with_tag_renderAggregations by done. by destruct (truthy _).
  - reflexivity.
  - rewrite with_tag_Aggregator_render.
    apply with_tag_Aggregator_renderAggregations.
  - reflexivity.
  - reflexivity.
Qed.

(* ===================================================================== *)
(** * Errors *)
(* ===================================================================== *)

(** C4. Error handling is display-only.  In both pages the [Error] widget is
    given [renderError], and for every error object [renderError] returns one
    [IlsError] element whose [error] attribute is that object: the same shape
    for every error, with no event handler on it. *)
Theorem errors_are_forwarded_to_IlsError
    (im : Imports) (documents : DocumentsSearch.Instance)
    (eitems : EItemsSearch.Instance) (error : JsVal) :
  with_tag "Error" (DocumentsSearch.render im documents)
  = [ Node "Error"
        {[ "renderElement" := PRender1 DocumentsSearch.renderError ]} [] ]
  ∧ with_tag "Error" (EItemsSearch.render im eitems)
    = [ Node "Error"
          {[ "renderElement" := PRender1 EItemsSearch.renderError ]} [] ]
  ∧ DocumentsSearch.renderError error
    = Node "IlsError" {[ "error" := PVal error ]} []
  ∧ EItemsSearch.renderError error
    = Node "IlsError" {[ "error" := PVal error ]} []
  ∧ handler_props (DocumentsSearch.renderError error) = []
  ∧ handler_props (EItemsSearch.renderError error) = [].
Proof.
  split; [|split; [|split; [|split; [|split]]]].
  - documents_tree. tags. rewrite with_tag_renderAggregations by done.
    by destruct (truthy _).
  - reflexivity.
  - reflexivity.
  - reflexivity.
  - vm_compute. reflexivity.
  - vm_compute. reflexivity.
Qed.

End Pages.

(* ===================================================================== *)
(** * Result rows *)
(* ===================================================================== *)

Section Results.

Lemma truthy_length_cons {A} (x : A) (l : list A) :
  truthy (JNum (Z.of_nat (length (x :: l)))) = true.
Proof. done. Qed.

Lemma documents_renderResultsList_cons (im : Imports) (book : Hit)
    (results : list Hit) :
  DocumentsSearch.renderResultsList im (book :: results)
  = Node "div" ∅ [ ElemList (map (DocumentsSearch.documentItem im) (book :: results)) ].
Proof.
  unfold DocumentsSearch.renderResultsList.
  by rewrite truthy_length_cons.
Qed.

Lemma documents_items (im : Imports) (results : list Hit) :
  with_tag "DocumentItem" (DocumentsSearch.renderResultsList im results)
  = map (DocumentsSearch.documentItem im) results.
Proof.
  destruct results as [|book results]; [done|].
  rewrite documents_renderResultsList_cons. tags.
  rewrite app_nil_r. by apply flat_map_map_singleton.
Qed.

(** C5. Every navigation raised from a result row goes to the router through
    [goTo], with the path of the details route builder at the identifier of
    the record: each [DocumentItem] of the Documents list has a row action
    that, for every [pid], calls [goTo(FrontSiteRoutes.documentDetailsFor(pid))]
    and nothing else, and the EItems list has a view-details action that,
    for every [row], calls [goTo(BackOfficeRoutes.eitemDetailsFor(row.ID))]
    and nothing else. *)
Theorem row_actions_navigate_to_details
    (im : Imports) (results : list Hit) (pid : JsVal)
    (row : gmap string JsVal) :
  length (with_tag "DocumentItem"
            (DocumentsSearch.renderResultsList im results))
  = length results
  ∧ Forall (fun n =>
              ∃ h, props_of n !! "rowActionClickHandler" = Some (PRowAction h)
                   ∧ h pid
                     = [GoTo (documentDetailsFor (FrontSiteRoutes im) pid)])
           (with_tag "DocumentItem"
              (DocumentsSearch.renderResultsList im results))
  ∧ ∃ h, map (fun n => props_of n !! "viewDetailsClickHandler")
             (with_tag "EItemsResultsList"
                (EItemsSearch.renderResultsList im results))
         = [Some (PViewDetails h)]
         ∧ h row
           = [GoTo (eitemDetailsFor (BackOfficeRoutes im) (get row "ID"))].
Proof.
  rewrite documents_items. split; [by rewrite length_map|]. split.
  - apply Forall_map, Forall_true. intros book.
    by exists (fun pid =>
                 [GoTo (documentDetailsFor (FrontSiteRoutes im) pid)]).
  - by exists (fun row =>
                 [GoTo (eitemDetailsFor (BackOfficeRoutes im) (get row "ID"))]).
Qed.

(** C10. For the empty results array, [renderResultsList] of DocumentsSearch
    returns [null] and [renderResultsGrid] an empty card group; for a
    non-empty array the list is a [div] of one [DocumentItem] per result and
    the grid a card group of one [BookCard] per result, in the order of the
    results, each keyed by [metadata.pid] of its result. *)
Theorem results_list_and_grid_render_one_keyed_item_per_result
    (im : Imports) (results : list Hit) :
  results ≠ [] →
  DocumentsSearch.renderResultsList im [] = Null
  ∧ DocumentsSearch.renderResultsGrid []
    = Node "Card.Group"
        {[ "doubling" := flag; "stackable" := flag; "itemsPerRow" := num 4 ]}
        [ ElemList [] ]
  ∧ (∃ items,
       DocumentsSearch.renderResultsList im results
       = Node "div" ∅ [ ElemList items ]
       ∧ length items = length results
       ∧ ∀ i book,
           results !! i = Some book →
           ∃ n, items !! i = Some n
                ∧ tag_of n = Some "DocumentItem"
                ∧ props_of n !! "key"
                  = Some (PVal (get (metadata book) "pid")))
  ∧ (∃ cards,
       DocumentsSearch.renderResultsGrid results
       = Node "Card.Group"
           {[ "doubling" := flag; "stackable" := flag;
              "itemsPerRow" := num 4 ]}
           [ ElemList cards ]
       ∧ length cards = length results
       ∧ ∀ i book,
           results !! i = Some book →
           ∃ n, cards !! i = Some n
                ∧ tag_of n = Some "BookCard"
                ∧ props_of n !! "key"
                  = Some (PVal (get (metadata book) "pid"))).
Proof.
  intros Hne. split; [done|]. split; [done|]. split.
  - exists (map (DocumentsSearch.documentItem im) results).
    destruct results as [|book0 results]; [done|].
    split; [apply documents_renderResultsList_cons|].
    split; [by rewrite length_map|].
    intros i book Hi. exists (DocumentsSearch.documentItem im book).
    rewrite list_lookup_fmap, Hi. done.
  - exists (map DocumentsSearch.bookCard results).
    split; [done|]. split; [by rewrite length_map|].
    intros i book Hi. exists (DocumentsSearch.bookCard book).
    rewrite list_lookup_fmap, Hi. done.
Qed.

End Results.

(* ===================================================================== *)
(** * Search endpoints *)
(* ===================================================================== *)

Section Endpoints.

(** C6. Each page configures its search-context provider with the endpoint of
    its API descriptor.  DocumentsSearch builds its search API from
    [{ url: documentApi.searchBaseURL, withCredentials: true }] and hands it
    to the provider in every state; EItemsSearch hands the provider a
    configuration whose [url] is [eitemApi.url], whatever [apiConfig] holds,
    and that agrees with [apiConfig] elsewhere. *)
Theorem providers_use_the_api_endpoints
    (im : Imports) (p : DocumentsSearch.Props)
    (documents : DocumentsSearch.Instance) (eitems : EItemsSearch.Instance) :
  DocumentsSearch.searchApi (DocumentsSearch.new im p)
  = InvenioSearchApi
      {[ "url" := searchBaseURL (documentApi im);
         "withCredentials" := JBool true ]}
  ∧ tag_of (DocumentsSearch.render im documents) = Some "ReactSearchKit"
  ∧ props_of (DocumentsSearch.render im documents)
    = {[ "searchApi" := PSearchApi (DocumentsSearch.searchApi documents) ]}
  ∧ (∀ ev,
       DocumentsSearch.searchApi
         (DocumentsSearch.with_state documents
            (DocumentsSearch.handle ev (DocumentsSearch.state documents)))
       = DocumentsSearch.searchApi documents)
  ∧ tag_of (EItemsSearch.render im eitems) = Some "ReactSearchKit"
  ∧ ∃ config,
      props_of (EItemsSearch.render im eitems)
      = {[ "searchConfig" := PVal (JObj config) ]}
      ∧ config !! "url" = Some (url (eitemApi im))
      ∧ ∀ k, k ≠ "url" → config !! k = apiConfig im !! k.
Proof.
  split; [done|]. split; [done|]. split; [done|]. split; [done|].
  split; [done|].
  exists (<[ "url" := url (eitemApi im) ]> (apiConfig im)).
  split; [done|]. split.
  - apply lookup_insert_eq.
  - intros k Hk. by apply lookup_insert_ne.
Qed.

End Endpoints.

(* ===================================================================== *)
(** * The theorems at the sample page *)
(* ===================================================================== *)

Section Witnesses.
Import DocumentsSearch.

(** The sample page starts in grid layout, has two aggregations, and its
    first accordion panel is open. *)
Example sample_initial_layout :
  map tag_of (with_tag "ResultsGrid" (render Sample.imports Sample.documents))
  = [Some "ResultsGrid"]
  ∧ with_tag "ResultsList" (render Sample.imports Sample.documents) = []
  ∧ length (with_tag "Aggregator" (render Sample.imports Sample.documents)) = 4
  ∧ panel_open
      (renderAccordionAggregations (state Sample.documents) (JStr "Languages")
         (JObj ∅) (JFun "buckets") {[ "index" := JNum 0 ]}) = true
  ∧ panel_open
      (renderAccordionAggregations (state Sample.documents) (JStr "Keywords")
         (JObj ∅) (JFun "buckets") {[ "index" := JNum 1 ]}) = false.
Proof. repeat split; vm_compute; reflexivity. Qed.

(** Clicking the title of the open panel closes it; clicking another opens
    that one. *)
Example sample_accordion_clicks :
  handle (ClickAccordionTitle JNull {[ "index" := JNum 0 ]})
         (state Sample.documents) !! "activeIndex" = Some (JNum (-1))
  ∧ handle (ClickAccordionTitle JNull {[ "index" := JNum 1 ]})
           (state Sample.documents) !! "activeIndex" = Some (JNum 1).
Proof. split; vm_compute; reflexivity. Qed.

(** The view-details action of the EItems list on the sample row. *)
Example sample_view_details :
  flat_map (fun kp => match kp.2 with
                      | PViewDetails h => h Sample.row
                      | _ => []
                      end)
           (handler_props (EItemsSearch.renderResultsList Sample.imports []))
  = [GoTo (JStr "/backoffice/eitems/7")].
Proof. vm_compute. reflexivity. Qed.

(** C1 at the sample page, which starts in grid layout. *)
Lemma toggling_layout_switches_grid_and_list_witness :
  state Sample.documents !! "isLayoutGrid" = Some (JBool true)
  ∧ with_tag "ResultsGrid" (render Sample.imports Sample.documents)
    = [ Node "ResultsGrid"
          {[ "renderElement" := PRenderResults renderResultsGrid ]} [] ]
  ∧ with_tag "ResultsList"
      (render Sample.imports
         (with_state Sample.documents
            (handle ClickLayoutButton (state Sample.documents))))
    = [ Node "ResultsList"
          {[ "renderElement" :=
               PRenderResults (renderResultsList Sample.imports) ]} [] ].
Proof.
  split; [reflexivity|].
  destruct (toggling_layout_switches_grid_and_list
              Sample.imports Sample.documents true eq_refl)
    as (Hgrid & _ & _ & _ & _ & Hlist).
  split; [exact Hgrid | exact Hlist].
Defined.

(** C9 at the initial state of the sample page. *)
Lemma layout_toggle_is_an_involution_witness :
  reachable (state Sample.documents)
  ∧ handle ClickLayoutButton
      (handle ClickLayoutButton (state Sample.documents))
    = state Sample.documents.
Proof.
  split; [apply reachable_initial|].
  destruct (layout_toggle_is_an_involution
              Sample.imports Sample.documents reachable_initial)
    as [_ (b & _ & _ & Htwice & _)].
  exact Htwice.
Defined.

(** C10 at two sample hits. *)
Lemma results_list_and_grid_render_one_keyed_item_per_result_witness :
  [Sample.book1; Sample.book2] ≠ []
  ∧ renderResultsList Sample.imports [] = Null
  ∧ ∃ items,
      renderResultsList Sample.imports [Sample.book1; Sample.book2]
      = Node "div" ∅ [ ElemList items ]
      ∧ length items = 2.
Proof.
  assert (Hne : [Sample.book1; Sample.book2] ≠ []) by discriminate.
  split; [exact Hne|].
  destruct (results_list_and_grid_render_one_keyed_item_per_result
              Sample.imports [Sample.book1; Sample.book2] Hne)
    as (Hnull & _ & (items & Hitems & Hlen & _) & _).
  split; [exact Hnull|]. exists items. split; [exact Hitems | exact Hlen].
Defined.

End Witnesses.

(* ===================================================================== *)
(** * Clicks on the layout buttons and the accordion titles *)
(* ===================================================================== *)

Section Clicks.
Import DocumentsSearch.

Lemma state_of_lookup a b k :
  state_of a b !! k =
  if decide (k = "activeIndex") then Some (JNum a)
  else if decide (k = "isLayoutGrid") then Some (JBool b) else None.
Proof.
  unfold state_of. repeat case_decide; subst.
  - by rewrite lookup_insert_eq.
  - rewrite lookup_insert_ne by done. by rewrite lookup_singleton_eq.
  - rewrite lookup_insert_ne by done. by rewrite lookup_singleton_ne.
Qed.

Lemma handle_layout_state_of a b :
  handle ClickLayoutButton (state_of a b) = state_of a (negb b).
Proof.
  apply map_eq. intros k. unfold handle.
  rewrite toggleLayout_lookup, !state_of_lookup.
  unfold get. rewrite state_of_lookup. simpl.
  repeat case_decide; subst; done.
Qed.

Lemma handle_title_state_of a b e tp i :
  tp !! "index" = Some (JNum i) →
  handle (ClickAccordionTitle e tp) (state_of a b)
  = state_of (if (a =? i)%Z then -1 else i) b.
Proof.
  intros Hi. apply map_eq. intros k. unfold handle.
  rewrite toggleAccordion_lookup, !state_of_lookup.
  unfold get. rewrite state_of_lookup, Hi. simpl.
  repeat case_decide; subst; try done.
  by destruct (a =? i)%Z.
Qed.

(** X1. [toggleLayout] works from any state, also one where [isLayoutGrid] is
    missing or not a boolean: one click stores the boolean [!isLayoutGrid],
    two clicks store the truthiness of the original value, and three clicks
    leave the same state as one. *)
Theorem layout_toggle_three_times (st : gmap string JsVal) :
  handle ClickLayoutButton st !! "isLayoutGrid"
  = Some (JBool (negb (truthy (get st "isLayoutGrid"))))
  ∧ handle ClickLayoutButton (handle ClickLayoutButton st) !! "isLayoutGrid"
    = Some (JBool (truthy (get st "isLayoutGrid")))
  ∧ handle ClickLayoutButton
      (handle ClickLayoutButton (handle ClickLayoutButton st))
    = handle ClickLayoutButton st.
Proof.
  assert (H1 : ∀ s, handle ClickLayoutButton s !! "isLayoutGrid"
            = Some (JBool (negb (truthy (get s "isLayoutGrid"))))).
  { intros s. unfold handle. by rewrite toggleLayout_lookup, decide_True. }
  assert (H2 : ∀ s, get (handle ClickLayoutButton s) "isLayoutGrid"
            = JBool (negb (truthy (get s "isLayoutGrid")))).
  { intros s. unfold get at 1. by rewrite H1. }
  split; [apply H1|]. split.
  - rewrite H1, H2. simpl. by rewrite negb_involutive.
  - apply map_eq. intros k.
    destruct (decide (k = "isLayoutGrid")) as [->|Hk].
    + rewrite !H1, !H2. simpl. by rewrite negb_involutive.
    + unfold handle at 1 2. rewrite !toggleLayout_lookup, !decide_False by done. done.
Qed.

(** X2. A layout click and an accordion click commute: the state after both
    is the same in either order; the accordion click keeps [isLayoutGrid] and
    the layout click keeps [activeIndex]. *)
Theorem layout_and_accordion_clicks_commute
    (st : gmap string JsVal) (e : JsVal) (titleProps : gmap string JsVal) :
  handle ClickLayoutButton (handle (ClickAccordionTitle e titleProps) st)
  = handle (ClickAccordionTitle e titleProps) (handle ClickLayoutButton st)
  ∧ handle (ClickAccordionTitle e titleProps) st !! "isLayoutGrid"
    = st !! "isLayoutGrid"
  ∧ handle ClickLayoutButton st !! "activeIndex" = st !! "activeIndex".
Proof.
  assert (Ha : ∀ s, get (handle ClickLayoutButton s) "activeIndex" = get s "activeIndex").
  { intros s. unfold get, handle. by rewrite toggleLayout_lookup, decide_False. }
  assert (Hl : ∀ s, get (handle (ClickAccordionTitle e titleProps) s) "isLayoutGrid" = get s "isLayoutGrid").
  { intros s. unfold get, handle. by rewrite toggleAccordion_lookup, decide_False. }
  split; [|split].
  - apply map_eq. intros k.
    unfold handle at 1 3.
    rewrite toggleLayout_lookup, toggleAccordion_lookup.
    rewrite Ha, Hl. unfold handle.
    rewrite toggleLayout_lookup, toggleAccordion_lookup.
    repeat case_decide; subst; done.
  - unfold handle. by rewrite toggleAccordion_lookup, decide_False.
  - unfold handle. by rewrite toggleLayout_lookup, decide_False.
Qed.

Lemma get_activeIndex_after_title st e tp :
  get (handle (ClickAccordionTitle e tp) st) "activeIndex"
  = if strict_eq (get st "activeIndex") (get tp "index")
    then JNum (-1) else get tp "index".
Proof.
  unfold get at 1, handle.
  by rewrite toggleAccordion_lookup, decide_True.
Qed.

(** X3. Clicking the title of panel [i] twice, from active index [a], leaves
    [i] active when [a = i] and no panel ([-1]) otherwise; so the two clicks
    restore the state exactly when the panel was the open one or none was
    open. *)
Theorem accordion_title_clicked_twice
    (st : gmap string JsVal) (e1 e2 : JsVal) (a i : Z) :
  st !! "activeIndex" = Some (JNum a) →
  let click ev := ClickAccordionTitle ev {[ "index" := JNum i ]} in
  handle (click e2) (handle (click e1) st) !! "activeIndex"
  = Some (JNum (if (a =? i)%Z then i else -1))
  ∧ (handle (click e2) (handle (click e1) st) = st ↔ a = i ∨ a = (-1)%Z).
Proof.
  intros Ha click.
  assert (Hget : get st "activeIndex" = JNum a) by (unfold get; by rewrite Ha).
  assert (Hidx : get {[ "index" := JNum i ]} "index" = JNum i) by done.
  assert (Htwice : handle (click e2) (handle (click e1) st) !! "activeIndex"
                   = Some (JNum (if (a =? i)%Z then i else -1))).
  { unfold handle at 1, click. rewrite toggleAccordion_lookup, decide_True by done.
    rewrite get_activeIndex_after_title, Hget, Hidx. cbn [strict_eq].
    destruct (a =? i)%Z eqn:E; cbn [strict_eq].
    - destruct (-1 =? i)%Z eqn:E'; [|done].
      apply Z.eqb_eq in E'. by subst.
    - by rewrite Z.eqb_refl. }
  split; [exact Htwice|]. split.
  - intros Heq. rewrite Heq, Ha in Htwice.
    destruct (a =? i)%Z eqn:E.
    + left. by apply Z.eqb_eq.
    + right. congruence.
  - intros Hor. apply map_eq. intros k.
    destruct (decide (k = "activeIndex")) as [->|Hk].
    + rewrite Htwice, Ha. destruct Hor as [->| ->].
      * by rewrite Z.eqb_refl.
      * destruct (-1 =? i)%Z eqn:E; [|done]. apply Z.eqb_eq in E. by subst.
    + unfold handle, click.
      by rewrite !toggleAccordion_lookup, !decide_False.
Qed.

(** X4. A click on the title of panel [i] flips that panel between open and
    closed when there are aggregation results, and leaves every other panel
    closed. *)
Theorem clicked_panel_toggles_and_others_close
    (st : gmap string JsVal) (e : JsVal) (titleProps : gmap string JsVal)
    (i : Z) :
  titleProps !! "index" = Some (JNum i) →
  (0 ≤ i)%Z →
  let after := handle (ClickAccordionTitle e titleProps) st in
  let panel s idx title resultsAggregations aggregations :=
    renderAccordionAggregations s title resultsAggregations aggregations
      {[ "index" := JNum idx ]} in
  (∀ t r ag,
     r ≠ JUndefined →
     panel_open (panel after i t r ag) = negb (panel_open (panel st i t r ag)))
  ∧ (∀ j t r ag,
       (0 ≤ j)%Z → j ≠ i → panel_open (panel after j t r ag) = false).
Proof.
  intros Hi Hne after panel.
  assert (Hidx : get titleProps "index" = JNum i) by (unfold get; by rewrite Hi).
  assert (Hafter : get after "activeIndex"
            = JNum (if strict_eq (get st "activeIndex") (JNum i) then -1 else i)).
  { unfold after. rewrite get_activeIndex_after_title, Hidx.
    by destruct (strict_eq _ _). }
  assert (Hp : ∀ s idx t r ag,
            panel_open (panel s idx t r ag)
            = negb (strict_eq r JUndefined)
              && strict_eq (get s "activeIndex") (JNum idx)).
  { intros. unfold panel. by rewrite panel_open_spec. }
  split.
  - intros t r ag Hr. rewrite !Hp, Hafter.
    assert (strict_eq r JUndefined = false) as -> by (by destruct r).
    cbn [negb andb].
    destruct (strict_eq (get st "activeIndex") (JNum i)); cbn [strict_eq negb].
    + apply Z.eqb_neq. lia.
    + apply Z.eqb_refl.
  - intros j t r ag Hj0 Hj. rewrite Hp, Hafter.
    apply andb_false_iff. right.
    destruct (strict_eq (get st "activeIndex") (JNum i)); cbn [strict_eq];
      apply Z.eqb_neq; lia.
Qed.

Lemma initial_state_of : initial_state = state_of 0 true.
Proof. done. Qed.

(** X5. The states a page with [n] aggregations reaches through its own
    buttons and panel titles are exactly the states
    [{ activeIndex: a, isLayoutGrid: b }] with [b] a boolean and [a = 0], or
    [-1 <= a < n] when there is a panel to click. *)
Theorem ui_reachable_states (n : nat) (st : gmap string JsVal) :
  ui_reachable n st
  ↔ ∃ (a : Z) (b : bool),
      st = state_of a b
      ∧ (a = 0 ∨ ((0 < n)%nat ∧ -1 ≤ a < Z.of_nat n))%Z.
Proof.
  split.
  - induction 1 as [|st ev _ (a & b & -> & Ha) Hev].
    + exists 0%Z, true. split; [done|by left].
    + destruct Hev as [|e tp idx Hidx Htp].
      * exists a, (negb b). by rewrite handle_layout_state_of.
      * exists (if (a =? Z.of_nat idx)%Z then -1 else Z.of_nat idx)%Z, b.
        rewrite (handle_title_state_of _ _ _ _ _ Htp). split; [done|].
        right. destruct (a =? Z.of_nat idx)%Z; lia.
  - intros (a & b & -> & Ha).
    assert (Hactive : ui_reachable n (state_of a true)).
    { destruct Ha as [->|[Hn Ha]]; [apply ui_initial|].
      destruct (decide (a = -1)%Z) as [->|Hneg].
      - assert (Hclick : handle (ClickAccordionTitle JNull {[ "index" := JNum (Z.of_nat 0) ]})
                           (state_of 0 true) = state_of (-1) true)
          by (by rewrite (handle_title_state_of _ _ _ _ (Z.of_nat 0))).
        rewrite <- Hclick. apply ui_step; [apply ui_initial|].
        by apply (ui_title _ _ _ 0%nat).
      - destruct (decide (a = 0)%Z) as [->|Hzero]; [apply ui_initial|].
        assert (Hclick : handle (ClickAccordionTitle JNull
                                   {[ "index" := JNum (Z.of_nat (Z.to_nat a)) ]})
                           (state_of 0 true) = state_of a true).
        { rewrite (handle_title_state_of _ _ _ _ (Z.of_nat (Z.to_nat a))) by done.
          rewrite Z2Nat.id by lia.
          destruct (0 =? a)%Z eqn:E; [|done]. apply Z.eqb_eq in E. lia. }
        rewrite <- Hclick. apply ui_step; [apply ui_initial|].
        apply (ui_title _ _ _ (Z.to_nat a)); [lia|done]. }
    destruct b; [done|].
    change false with (negb true). rewrite <- handle_layout_state_of.
    apply ui_step; [done|apply ui_layout].
Qed.

End Clicks.

(* ===================================================================== *)
(** * Panels, items and their keys *)
(* ===================================================================== *)

Section Keys.
Import DocumentsSearch.

Lemma imap_ignoring_index {A B} (f : A -> B) (l : list A) :
  imap (fun _ x => f x) l = map f l.
Proof.
  induction l as [|x l IH]; [done|]. simpl. f_equal. exact IH.
Qed.

Lemma map_imap {A B C} (g : B -> C) (f : nat -> A -> B) (l : list A) :
  map g (imap f l) = imap (fun i x => g (f i x)) l.
Proof.
  revert f. induction l as [|x l IH]; intros f; [done|].
  simpl. f_equal. apply IH.
Qed.

Lemma NoDup_string_keys (names : list string) :
  NoDup names →
  NoDup (map (fun name => Some (@PVal Element (JStr name))) names).
Proof.
  intros H.
  assert (Hinj : Inj (=) (=) (fun name => Some (@PVal Element (JStr name))))
    by (intros x y Hxy; congruence).
  by apply (NoDup_fmap_2 _).
Qed.

(** X6. The accordion panels and the card panels of [renderAggregations] show
    the same aggregations in the same order: the same titles and fields, and
    the same value as key, [agg.field]; the card panels leave rendering to
    the toolkit (no [renderElement], no [customProps]).  When the fields are
    pairwise distinct strings, the keys of both lists are those strings,
    pairwise distinct. *)
Theorem accordion_and_card_panels_agree (this : Instance) :
  let aggs := AGGREGATIONS (searchConfig this) in
  let describe n := (props_of n !! "title", props_of n !! "field") in
  let key n := props_of n !! "key" in
  map describe (with_tag "Aggregator" (ElemList (accordionPanels this)))
  = map (fun agg => (Some (PVal (get agg "title")),
                     Some (PVal (get agg "field")))) aggs
  ∧ map describe (with_tag "Aggregator" (ElemList (cardPanels this)))
    = map (fun agg => (Some (PVal (get agg "title")),
                       Some (PVal (get agg "field")))) aggs
  ∧ map key (accordionPanels this)
    = map (fun agg => Some (PVal (get agg "field"))) aggs
  ∧ map key (cardPanels this)
    = map (fun agg => Some (PVal (get agg "field"))) aggs
  ∧ Forall (fun n => props_of n !! "renderElement" = None
                     ∧ props_of n !! "customProps" = None)
           (with_tag "Aggregator" (ElemList (cardPanels this)))
  ∧ (∀ names : list string,
       map (fun agg => get agg "field") aggs = map JStr names →
       NoDup names →
       map key (accordionPanels this)
       = map (fun name => Some (PVal (JStr name))) names
       ∧ map key (cardPanels this)
         = map (fun name => Some (PVal (JStr name))) names
       ∧ NoDup (map key (accordionPanels this))
       ∧ NoDup (map key (cardPanels this))).
Proof.
  intros aggs describe key.
  assert (Hacc : with_tag "Aggregator" (ElemList (accordionPanels this))
            = imap (fun idx agg =>
                Node "Aggregator"
                  {[ "title" := PVal (get agg "title");
                     "field" := PVal (get agg "field");
                     "customProps" :=
                       PVal (JObj {[ "index" := JNum (Z.of_nat idx) ]});
                     "renderElement" :=
                       PRenderAggregation renderAccordionAggregations ]} [])
                aggs).
  { unfold accordionPanels. cbn [with_tag]. by apply flat_map_imap_singleton. }
  assert (Hcard : with_tag "Aggregator" (ElemList (cardPanels this))
            = map (fun agg =>
                Node "Aggregator"
                  {[ "title" := PVal (get agg "title");
                     "field" := PVal (get agg "field") ]} [])
                aggs).
  { unfold cardPanels. cbn [with_tag]. by apply flat_map_map_singleton. }
  assert (Hka : map key (accordionPanels this)
            = map (fun agg => Some (PVal (get agg "field"))) aggs).
  { unfold accordionPanels. rewrite map_imap.
    by rewrite <- (imap_ignoring_index
                     (fun agg => Some (@PVal Element (get agg "field")))). }
  assert (Hkc : map key (cardPanels this)
            = map (fun agg => Some (PVal (get agg "field"))) aggs).
  { unfold cardPanels. by rewrite map_map. }
  split; [|split; [|split; [|split; [|split]]]].
  - rewrite Hacc, map_imap.
    by rewrite <- (imap_ignoring_index
                     (fun agg => (Some (@PVal Element (get agg "title")),
                                  Some (@PVal Element (get agg "field"))))).
  - rewrite Hcard. by rewrite map_map.
  - exact Hka.
  - exact Hkc.
  - rewrite Hcard. apply Forall_map, Forall_true. intros agg. by split.
  - intros names Hnames Hnd. rewrite Hka, Hkc.
    assert (Hk : map (fun agg => Some (@PVal Element (get agg "field"))) aggs
                 = map (fun name => Some (PVal (JStr name))) names).
    { rewrite <- (map_map (fun agg => get agg "field")
                          (fun v => Some (@PVal Element v))).
      by rewrite Hnames, map_map. }
    rewrite Hk. repeat split; try done; by apply NoDup_string_keys.
Qed.

(** X7. For results whose [metadata.pid] are pairwise distinct strings, the
    list items and the grid cards have the same keys in the same order,
    those strings, pairwise distinct; each list item has the same string as
    [data-test]. *)
Theorem distinct_string_pids_give_distinct_keys
    (im : Imports) (results : list Hit) (pids : list string) :
  map (fun book => get (metadata book) "pid") results = map JStr pids →
  NoDup pids →
  let key n := props_of n !! "key" in
  let list_items :=
    with_tag "DocumentItem" (renderResultsList im results) in
  let grid_cards := with_tag "BookCard" (renderResultsGrid results) in
  map key list_items = map key grid_cards
  ∧ map key grid_cards = map (fun pid => Some (PVal (JStr pid))) pids
  ∧ NoDup (map key list_items)
  ∧ NoDup (map key grid_cards)
  ∧ map (fun n => props_of n !! "data-test") list_items
    = map (fun pid => Some (PVal (JStr pid))) pids.
Proof.
  intros Hpids Hnd key list_items grid_cards.
  assert (Hl : list_items = map (documentItem im) results)
    by apply documents_items.
  assert (Hg : grid_cards = map bookCard results).
  { unfold grid_cards, renderResultsGrid. tags. rewrite app_nil_r.
    by apply flat_map_map_singleton. }
  assert (Hk : map (fun book =>
                  Some (@PVal Element (get (metadata book) "pid"))) results
               = map (fun pid => Some (PVal (JStr pid))) pids).
  { rewrite <- (map_map (fun book => get (metadata book) "pid")
                        (fun v => Some (@PVal Element v))).
    by rewrite Hpids, map_map. }
  assert (Hkl : map key list_items
                = map (fun pid => Some (PVal (JStr pid))) pids)
    by (by rewrite Hl, map_map).
  assert (Hkg : map key grid_cards
                = map (fun pid => Some (PVal (JStr pid))) pids)
    by (by rewrite Hg, map_map).
  split; [by rewrite Hkl, Hkg|]. split; [exact Hkg|].
  split; [rewrite Hkl; by apply NoDup_string_keys|].
  split; [rewrite Hkg; by apply NoDup_string_keys|].
  by rewrite Hl, map_map.
Qed.

End Keys.

(* ===================================================================== *)
(** * Handlers and links of the page trees *)
(* ===================================================================== *)

Section Trees.

Ltac documents_tree :=
  unfold DocumentsSearch.render, DocumentsSearch.renderHeader,
    DocumentsSearch.renderFooter, DocumentsSearch.renderResultsLayoutOptions.

Lemma flat_map_flat_map {A B C} (f : B -> list C) (g : A -> list B)
    (l : list A) :
  flat_map f (flat_map g l) = flat_map (fun x => flat_map f (g x)) l.
Proof.
  induction l as [|x l IH]; [done|]. simpl. by rewrite flat_map_app, IH.
Qed.

Lemma handler_props_Node tag p cs :
  handler_props (Node tag p cs)
  = own_handlers p ++ flat_map handler_props cs.
Proof.
  unfold handler_props at 1. cbn [nodes flat_map props_of].
  by rewrite flat_map_flat_map.
Qed.

Lemma handler_props_ElemList items :
  handler_props (ElemList items) = flat_map handler_props items.
Proof.
  unfold handler_props at 1. cbn [nodes flat_map props_of].
  rewrite map_to_list_empty. cbn [List.filter app].
  by rewrite flat_map_flat_map.
Qed.

Lemma own_handlers_values (m : gmap string JsVal) :
  own_handlers (PVal <$> m) = [].
Proof.
  unfold own_handlers.
  assert (H : Forall (fun kp : string * PropVal Element =>
                        is_callback kp.2 = false)
                     (map_to_list (PVal <$> m))).
  { apply Forall_forall. intros [k p] Hkp.
    apply elem_of_map_to_list in Hkp. rewrite lookup_fmap in Hkp.
    destruct (m !! k); simplify_eq/=. done. }
  induction H as [|kp l Hkp _ IH]; [done|].
  cbn [List.filter]. by rewrite Hkp.
Qed.

Lemma handler_props_renderAggregations im this :
  handler_props (DocumentsSearch.renderAggregations im this) = [].
Proof.
  unfold DocumentsSearch.renderAggregations,
    DocumentsSearch.accordionPanels, DocumentsSearch.cardPanels.
  rewrite handler_props_Node. cbn [flat_map].
  rewrite !handler_props_Node, !own_handlers_values. cbn [flat_map app].
  rewrite !handler_props_ElemList.
  rewrite flat_map_imap_nil, flat_map_map_nil; [done| |];
    intros; vm_compute; reflexivity.
Qed.

(** X8. The tree DocumentsSearch renders holds exactly two attributes that are
    event handlers defined by the page, the [onClick] of the two layout
    buttons, in every state and for every list of aggregations; every
    command these handlers issue is a state update, so no handler attached
    in the page tree calls [goTo].  The tree also holds one [Link] element,
    which is not a handler. *)
Theorem documents_tree_has_only_the_layout_handlers
    (im : Imports) (this : DocumentsSearch.Instance) :
  handler_props (DocumentsSearch.render im this)
  = [ ("onClick", PClick DocumentsSearch.toggleLayout);
      ("onClick", PClick DocumentsSearch.toggleLayout) ]
  ∧ Forall (fun kp => match kp.2 with
                      | PClick h => ∀ st, forallb is_setState (h st) = true
                      | _ => False
                      end)
           (handler_props (DocumentsSearch.render im this))
  ∧ length (with_tag "Link" (DocumentsSearch.render im this)) = 1.
Proof.
  assert (Hh : handler_props (DocumentsSearch.render im this)
            = [ ("onClick", PClick DocumentsSearch.toggleLayout);
                ("onClick", PClick DocumentsSearch.toggleLayout) ]).
  { documents_tree.
    destruct (truthy _);
      repeat (rewrite handler_props_Node; cbn [flat_map app]);
      rewrite handler_props_renderAggregations;
      vm_compute; reflexivity. }
  split; [exact Hh|]. split.
  - rewrite Hh. repeat constructor.
  - documents_tree. tags. rewrite with_tag_renderAggregations by done.
    by destruct (truthy _).
Qed.

(** X9. The page has one link to the request form; its target is
    [FrontSiteRoutes.documentRequestForm] with the query string of the
    current location as state.  No click on a layout button or an accordion
    title changes the link, and the link has no handler of its own. *)
Theorem request_form_link_carries_the_location_query
    (im : Imports) (this : DocumentsSearch.Instance)
    (ev : DocumentsSearch.Event) :
  let link :=
    Node "Link"
      {[ "to" :=
           PVal (JObj
             {[ "pathname" := documentRequestForm (FrontSiteRoutes im);
                "state" :=
                  JObj {[ "queryString" :=
                            DocumentsSearch.search
                              (DocumentsSearch.location
                                 (DocumentsSearch.props this)) ]} ]}) ]}
      [ Text "book request form" ] in
  with_tag "Link" (DocumentsSearch.render im this) = [link]
  ∧ with_tag "Link"
      (DocumentsSearch.render im
         (DocumentsSearch.with_state this
            (DocumentsSearch.handle ev (DocumentsSearch.state this))))
    = [link]
  ∧ handler_props link = [].
Proof.
  intros link. split; [|split].
  - documents_tree. tags. rewrite with_tag_renderAggregations by done.
    by destruct (truthy _).
  - documents_tree. tags. rewrite with_tag_renderAggregations by done.
    by destruct (truthy _).
  - vm_compute. reflexivity.
Qed.

(** X10. In the empty-results rendering of EItemsSearch the clear button calls
    [resetQuery] without arguments and nothing else, and the new button opens
    the record editor at the [url] of the search configuration the page gives
    its provider; neither depends on the query string or on a state. *)
Theorem eitems_new_button_opens_the_searched_endpoint
    (im : Imports) (this : EItemsSearch.Instance)
    (queryString resetQuery : JsVal) (config st : gmap string JsVal) :
  props_of (EItemsSearch.render im this) !! "searchConfig"
  = Some (PVal (JObj config)) →
  map (fun h => h st)
      (click_handlers
         (EItemsSearch.renderEmptyResults im queryString resetQuery))
  = [ [Invoke resetQuery []]; [OpenRecordEditor (get config "url")] ]
  ∧ map (fun n => props_of n !! "text")
        (with_tag "NewButton"
           (EItemsSearch.renderEmptyResults im queryString resetQuery))
    = [Some (str "New eitem")].
Proof.
  intros Hcfg.
  assert (Hurl : get config "url" = url (eitemApi im)).
  { unfold EItemsSearch.render in Hcfg. cbn [props_of] in Hcfg.
    rewrite lookup_singleton_eq in Hcfg. injection Hcfg as <-.
    unfold get. by rewrite lookup_insert_eq. }
  rewrite Hurl. split; [|reflexivity].
  assert (Hh : click_handlers
            (EItemsSearch.renderEmptyResults im queryString resetQuery)
          = [ (fun _ => [Invoke resetQuery []]);
              (fun _ => [OpenRecordEditor (url (eitemApi im))]) ])
    by (vm_compute; reflexivity).
  by rewrite Hh.
Qed.

(** X11. [renderResultsList] of EItemsSearch never returns [null]: also for
    the empty array it renders the list component and hands it the results
    unchanged, whereas that of DocumentsSearch returns [null] exactly for the
    empty array.  For a row without [ID] the view-details action still
    navigates, to [eitemDetailsFor(undefined)]. *)
Theorem eitems_results_list_is_always_rendered
    (im : Imports) (results : list Hit) :
  EItemsSearch.renderResultsList im results ≠ Null
  ∧ map (fun n => props_of n !! "results")
        (with_tag "EItemsResultsList"
           (EItemsSearch.renderResultsList im results))
    = [Some (PHits results)]
  ∧ (DocumentsSearch.renderResultsList im results = Null ↔ results = [])
  ∧ ∃ h, map (fun n => props_of n !! "viewDetailsClickHandler")
             (with_tag "EItemsResultsList"
                (EItemsSearch.renderResultsList im results))
         = [Some (PViewDetails h)]
         ∧ ∀ row, row !! "ID" = None →
                  h row = [GoTo (eitemDetailsFor (BackOfficeRoutes im)
                                   JUndefined)].
Proof.
  split; [discriminate|]. split; [reflexivity|]. split.
  - destruct results as [|book results]; [done|].
    rewrite documents_renderResultsList_cons. split; discriminate.
  - eexists. split; [reflexivity|].
    intros row Hrow. cbn beta. unfold get. by rewrite Hrow.
Qed.

(** X12. The two pages render errors, counts and footers identically, and both
    show the pagination twice.  Their search bars ignore the first argument
    and differ in the component and the placeholder only: the query string
    and the two callbacks of the toolkit are handed on unchanged. *)
Theorem pages_share_error_count_and_footer
    (im : Imports) (documents : DocumentsSearch.Instance)
    (eitems : EItemsSearch.Instance) (v u u' q onInputChange executeSearch : JsVal) :
  DocumentsSearch.renderError v = EItemsSearch.renderError v
  ∧ DocumentsSearch.renderCount v = EItemsSearch.renderCount v
  ∧ DocumentsSearch.renderFooter documents = EItemsSearch.renderFooter eitems
  ∧ length (with_tag "Pagination" (DocumentsSearch.render im documents)) = 2
  ∧ length (with_tag "Pagination" (EItemsSearch.render im eitems)) = 2
  ∧ DocumentsSearch.renderSearchBar u q onInputChange executeSearch
    = DocumentsSearch.renderSearchBar u' q onInputChange executeSearch
  ∧ EItemsSearch.renderSearchBar u q onInputChange executeSearch
    = EItemsSearch.renderSearchBar u' q onInputChange executeSearch
  ∧ delete "placeholder"
      (props_of (DocumentsSearch.renderSearchBar u q onInputChange
                   executeSearch))
    = delete "placeholder"
        (props_of (EItemsSearch.renderSearchBar u q onInputChange
                     executeSearch))
  ∧ delete "placeholder"
      (props_of (EItemsSearch.renderSearchBar u q onInputChange
                   executeSearch))
    = {[ "currentQueryString" := PVal q;
         "onInputChange" := PVal onInputChange;
         "executeSearch" := PVal executeSearch ]}.
Proof.
  split; [done|]. split; [done|]. split; [done|]. split.
  { documents_tree. tags. rewrite with_tag_renderAggregations by done.
    by destruct (truthy _). }
  split; [done|]. split; [done|]. split; [done|]. split; reflexivity.
Qed.

(** X13. [renderAccordionAggregations] returns [null] exactly when the
    aggregation results are [undefined]; for [null] or any other value it
    renders the panel, whose title and content carry the same [active] flag,
    and whose title reports the index of [customProps] to
    [toggleAccordion]. *)
Theorem accordion_panel_is_absent_only_for_undefined
    (st : gmap string JsVal) (title resultsAggregations aggregations : JsVal)
    (customProps : gmap string JsVal) :
  let panel :=
    DocumentsSearch.renderAccordionAggregations st title resultsAggregations
      aggregations customProps in
  (panel = Null ↔ resultsAggregations = JUndefined)
  ∧ (resultsAggregations ≠ JUndefined →
     map (fun n => props_of n !! "active") (with_tag "Accordion.Title" panel)
     = map (fun n => props_of n !! "active")
           (with_tag "Accordion.Content" panel)
     ∧ map (fun n => (props_of n !! "index", props_of n !! "onClick"))
           (with_tag "Accordion.Title" panel)
       = [ (Some (PVal (get customProps "index")),
            Some (PTitleClick DocumentsSearch.toggleAccordion)) ]).
Proof.
  intros panel. unfold panel, DocumentsSearch.renderAccordionAggregations.
  split.
  - destruct resultsAggregations; cbn [strict_eq negb]; split; done.
  - intros Hr.
    assert (strict_eq resultsAggregations JUndefined = false) as ->
      by (by destruct resultsAggregations).
    cbn [negb]. split; reflexivity.
Qed.

End Trees.

(* ===================================================================== *)
(** * Clicks, keys and buttons at the sample page *)
(* ===================================================================== *)

Section SampleClicks.
Import DocumentsSearch.

(** X3 at the initial state: two clicks on panel 1 close every panel. *)
Lemma accordion_title_clicked_twice_witness :
  state Sample.documents !! "activeIndex" = Some (JNum 0)
  ∧ handle (ClickAccordionTitle JNull {[ "index" := JNum 1 ]})
      (handle (ClickAccordionTitle JNull {[ "index" := JNum 1 ]})
         (state Sample.documents)) !! "activeIndex"
    = Some (JNum (-1)).
Proof.
  split; [reflexivity|].
  exact (proj1 (accordion_title_clicked_twice
                  (state Sample.documents) JNull JNull 0 1 eq_refl)).
Defined.

(** X4 at the initial state: a click on panel 1 closes panel 0. *)
Lemma clicked_panel_toggles_and_others_close_witness :
  ({[ "index" := JNum 1 ]} : gmap string JsVal) !! "index" = Some (JNum 1)
  ∧ (0 ≤ 1)%Z
  ∧ panel_open
      (renderAccordionAggregations
         (handle (ClickAccordionTitle JNull {[ "index" := JNum 1 ]})
            (state Sample.documents))
         (JStr "Languages") (JObj ∅) (JFun "buckets")
         {[ "index" := JNum 0 ]}) = false.
Proof.
  assert (Hpos : (0 ≤ 1)%Z) by lia.
  assert (Hidx : ({[ "index" := JNum 1 ]} : gmap string JsVal) !! "index"
                 = Some (JNum 1)) by reflexivity.
  split; [exact Hidx|]. split; [exact Hpos|].
  apply (proj2 (clicked_panel_toggles_and_others_close
                  (state Sample.documents) JNull {[ "index" := JNum 1 ]} 1
                  Hidx Hpos)); lia.
Defined.

(** X7 at two sample hits. *)
Lemma distinct_string_pids_give_distinct_keys_witness :
  map (fun book => get (metadata book) "pid") [Sample.book1; Sample.book2]
  = map JStr ["123"; "456"]
  ∧ NoDup ["123"; "456"]
  ∧ map (fun n => props_of n !! "key")
        (with_tag "BookCard"
           (renderResultsGrid [Sample.book1; Sample.book2]))
    = [Some (PVal (JStr "123")); Some (PVal (JStr "456"))].
Proof.
  assert (Hpids : map (fun book => get (metadata book) "pid")
                      [Sample.book1; Sample.book2]
                  = map JStr ["123"; "456"]) by reflexivity.
  assert (Hnd : NoDup ["123"; "456"]).
  { apply NoDup_cons. split.
    - intros Hin. apply list_elem_of_singleton in Hin. discriminate Hin.
    - apply NoDup_singleton. }
  split; [exact Hpids|]. split; [exact Hnd|].
  exact (proj1 (proj2 (distinct_string_pids_give_distinct_keys
                         Sample.imports [Sample.book1; Sample.book2]
                         ["123"; "456"] Hpids Hnd))).
Defined.

(** X10 at the sample page. *)
Lemma eitems_new_button_opens_the_searched_endpoint_witness :
  props_of (EItemsSearch.render Sample.imports Sample.eitems) !! "searchConfig"
  = Some (PVal (JObj (<[ "url" := JStr "/api/eitems/" ]>
                        (apiConfig Sample.imports))))
  ∧ map (fun h => h ∅)
        (click_handlers
           (EItemsSearch.renderEmptyResults Sample.imports (JStr "dune")
              (JFun "resetQuery")))
    = [ [Invoke (JFun "resetQuery") []];
        [OpenRecordEditor
           (get (<[ "url" := JStr "/api/eitems/" ]>
                   (apiConfig Sample.imports)) "url")] ].
Proof.
  split; [reflexivity|].
  exact (proj1 (eitems_new_button_opens_the_searched_endpoint
                  Sample.imports Sample.eitems (JStr "dune")
                  (JFun "resetQuery") _ ∅ eq_refl)).
Defined.

End SampleClicks.
